(** * go-gRPC-server-client: the user service and its distributed lockers

    A shallow embedding of [internal/server/server.go]: the
    [DistributedLocker] interface, its two drivers ([RedsyncLocker] over
    Redis/Redsync and [EtcdLocker] over etcd sessions), the five handlers
    of [UserServer], [maskDSN], the handler of [/healthz] and the
    constructors run at start-up; and of [internal/client/client.go]: the
    methods of [UserClient].

    Go code that talks to the outside (the lock backends, [database/sql],
    the clock) is embedded as a program over the calls it makes: a finite
    tree whose nodes are the external calls, in the order the source
    performs them, and whose leaves are the returned values.  A program is
    run against a world that answers each call; the run yields the returned
    value, the final world and the trace of calls.  Calls to [logger] are
    left out: they return nothing and no handler branches on them. *)

From Stdlib Require Import ZArith List String Ascii Bool Lia.
From Stdlib Require Import DecimalString DecimalPos DecimalZ.
Import ListNotations.

Local Open Scope Z_scope.
Local Open Scope string_scope.

(** ** Go values *)

(** Go's conversion [int32(x)] of a wider integer: wrap-around on 32 bits. *)
Definition int32 (x : Z) : Z := (x + 2 ^ 31) mod 2 ^ 32 - 2 ^ 31.

(** [fmt.Sprintf("%d", n)]. *)
Definition Sprintf_d (n : Z) : string := NilZero.string_of_int (Z.to_int n).

(** Values of Go's [error] interface that the server builds or compares
    with: [sql.ErrNoRows], an error carrying a message, and the wrapper
    that [fmt.Errorf] builds for the verb [%w]. *)
Inductive error : Type :=
| ErrNoRows
| errorString (s : string)
| wrapError (msg : string) (err : error).

(** The method [Error()]. *)
Definition Error (e : error) : string :=
  match e with
  | ErrNoRows => "sql: no rows in result set"
  | errorString s => s
  | wrapError msg _ => msg
  end.

(** [errors.Unwrap]. *)
Definition Unwrap (e : error) : option error :=
  match e with
  | wrapError _ err => Some err
  | _ => None
  end.

(** [fmt.Errorf(prefix + "%w", err)]. *)
Definition Errorf_w (prefix : string) (err : error) : error :=
  wrapError (prefix ++ Error err) err.

(** [fmt.Errorf(msg)] without a verb. *)
Definition Errorf (msg : string) : error := errorString msg.

(** The dynamic type of an error value, which is what a caller can switch
    on without looking at the message or unwrapping. *)
Inductive error_kind : Type := KSentinel | KErrorString | KWrapError.

Definition kind_of (e : error) : error_kind :=
  match e with
  | ErrNoRows => KSentinel
  | errorString _ => KErrorString
  | wrapError _ _ => KWrapError
  end.

(** A Go call returning [(T, error)], where the caller looks at the value
    only when the error is nil. *)
Inductive outcome (A : Type) : Type :=
| Ok (a : A)
| Fail (err : error).
Arguments Ok {A} a.
Arguments Fail {A} err.

(** [context.Context]: the background context and contexts derived from a
    parent with a timeout, a [time.Duration] in nanoseconds. *)
Inductive Context : Type :=
| Background
| WithTimeout (parent : Context) (d : Z).

Definition Second : Z := 1000000000.

(** The bound on the time a call under [ctx] may still take, when [ctx]
    or one of its ancestors carries a timeout. *)
Fixpoint timeout_bound (ctx : Context) : option Z :=
  match ctx with
  | Background => None
  | WithTimeout parent d =>
      match timeout_bound parent with
      | None => Some d
      | Some d' => Some (Z.min d d')
      end
  end.

(** ** Programs over external calls *)

Inductive prog (E : Type -> Type) (R : Type) : Type :=
| Ret (r : R)
| Vis (X : Type) (e : E X) (k : X -> prog E R).
Arguments Ret {E R} r.
Arguments Vis {E R X} e k.

Fixpoint bind {E : Type -> Type} {A B : Type}
  (p : prog E A) (f : A -> prog E B) : prog E B :=
  match p with
  | Ret a => f a
  | Vis e k => Vis e (fun x => bind (k x) f)
  end.

Definition trigger {E : Type -> Type} {X : Type} (e : E X) : prog E X :=
  Vis e (fun x => Ret x).

Notation "x <- p ;; q" := (bind p (fun x => q))
  (at level 61, p at next level, right associativity).
Notation "p ;;; q" := (bind p (fun _ => q))
  (at level 61, right associativity).

(** Go's [defer d()] placed in front of [body]: the deferred call runs
    when the function returns, after the returned values are computed. *)
Definition defer {E : Type -> Type} {R : Type}
  (d : prog E unit) (body : prog E R) : prog E R :=
  r <- body ;; d ;;; Ret r.

(** Sum of two families of calls. *)
Inductive sumE (E F : Type -> Type) (X : Type) : Type :=
| inlE (e : E X)
| inrE (f : F X).
Arguments inlE {E F X} e.
Arguments inrE {E F X} f.
Notation "E +' F" := (sumE E F) (at level 60, right associativity).

(** Replace every call of [E] by a program over [F]. *)
Fixpoint interp {E F : Type -> Type} {R : Type}
  (h : forall X, E X -> prog F X) (p : prog E R) : prog F R :=
  match p with
  | Ret r => Ret r
  | Vis e k => x <- h _ e ;; interp h (k x)
  end.

(** One answered call. *)
Inductive entry (E : Type -> Type) : Type :=
| Entry (X : Type) (e : E X) (x : X).
Arguments Entry {E X} e x.

(** A world answers calls and moves on. *)
Definition world (E : Type -> Type) (S : Type) : Type :=
  forall X, E X -> S -> X * S.

Record ran (E : Type -> Type) (R S : Type) : Type := Ran {
  value : R;
  final : S;
  trace : list (entry E)
}.
Arguments Ran {E R S} value final trace.
Arguments value {E R S} r.
Arguments final {E R S} r.
Arguments trace {E R S} r.

Fixpoint run {E : Type -> Type} {R S : Type}
  (w : world E S) (p : prog E R) (s : S) : ran E R S :=
  match p with
  | Ret r => Ran r s []
  | Vis e k =>
      let (x, s') := w _ e s in
      let r := run w (k x) s' in
      Ran (value r) (final r) (Entry e x :: trace r)
  end.

(** ** Protocol buffer messages ([proto/service.proto]) *)

Module pb.

Record User : Type := mkUser {
  Id : Z;
  Name : string;
  Email : string;
  Age : Z;
  CreatedAt : string;
  UpdatedAt : string
}.

Record GetUserRequest : Type := { GetUserRequest_Id : Z }.

Record GetUserResponse : Type := {
  GetUserResponse_User : option User;
  GetUserResponse_Success : bool;
  GetUserResponse_Message : string
}.

Record ListUsersRequest : Type := {
  ListUsersRequest_Page : Z;
  ListUsersRequest_Limit : Z
}.

Record ListUsersResponse : Type := {
  ListUsersResponse_Users : list User;
  ListUsersResponse_Total : Z;
  ListUsersResponse_Success : bool;
  ListUsersResponse_Message : string
}.

Record CreateUserRequest : Type := {
  CreateUserRequest_Name : string;
  CreateUserRequest_Email : string;
  CreateUserRequest_Age : Z
}.

Record CreateUserResponse : Type := {
  CreateUserResponse_User : option User;
  CreateUserResponse_Success : bool;
  CreateUserResponse_Message : string
}.

Record UpdateUserRequest : Type := {
  UpdateUserRequest_Id : Z;
  UpdateUserRequest_Name : string;
  UpdateUserRequest_Email : string;
  UpdateUserRequest_Age : Z
}.

Record UpdateUserResponse : Type := {
  UpdateUserResponse_User : option User;
  UpdateUserResponse_Success : bool;
  UpdateUserResponse_Message : string
}.

Record DeleteUserRequest : Type := { DeleteUserRequest_Id : Z }.

Record DeleteUserResponse : Type := {
  DeleteUserResponse_Success : bool;
  DeleteUserResponse_Message : string
}.

End pb.

(** ** The storage and the clock *)

(** An argument of a parameterised statement. *)
Inductive arg : Type :=
| IntArg (n : Z)
| StrArg (s : string).

(** [sql.Result]: what its two methods return. *)
Record Result : Type := {
  LastInsertId : outcome Z;
  RowsAffected : outcome Z
}.

(** [*sql.Row]: what [row.Scan] into the six fields of a user returns. *)
Definition Row : Type := outcome pb.User.

(** [*sql.Rows]: for each [rows.Next()] that is true, what [rows.Scan]
    returns. *)
Definition Rows : Type := list (outcome pb.User).

(** The methods of [DBInterface], and [rows.Close]. *)
Inductive dbE : Type -> Type :=
| ExecContext (ctx : Context) (query : string) (args : list arg)
    : dbE (outcome Result)
| QueryContext (ctx : Context) (query : string) (args : list arg)
    : dbE (outcome Rows)
| QueryRowContext (ctx : Context) (query : string) (args : list arg)
    : dbE Row
| RowsClose : dbE unit.

(** [time.Now().Format(time.RFC3339)]. *)
Inductive clockE : Type -> Type :=
| Now : clockE string.

(** What a handler does besides locking. *)
Definition baseE : Type -> Type := dbE +' clockE.

(** ** The [DistributedLocker] interface *)

(** The calls a handler makes on [s.locker] and on the [UnlockFunc] it got
    back; [U] is the type of the returned unlock functions. *)
Inductive lockE (U : Type) : Type -> Type :=
| CallLockUser (ctx : Context) (userID : Z) : lockE U (outcome U)
| CallUnlock (unlock : U) : lockE U unit.
Arguments CallLockUser {U} ctx userID.
Arguments CallUnlock {U} unlock.

(** An implementation of the interface by programs over the calls [B] of a
    lock backend.  An [UnlockFunc] is a closure: [UnlockFunc] holds the
    variables it captured and [Call] is its body. *)
Class DistributedLocker (L : Type) (B : Type -> Type) : Type := {
  UnlockFunc : Type;
  LockUser : L -> Context -> Z -> prog B (outcome UnlockFunc);
  Call : UnlockFunc -> prog B unit;
  HealthCheck : L -> Context -> prog B (option error)
}.

(** ** The Redis driver ([RedsyncLocker]) *)

(** Calls on the Redsync mutex named [name] and on the Redis client. *)
Inductive redisE : Type -> Type :=
| MutexLockContext (ctx : Context) (name : string) : redisE (option error)
| MutexUnlock (name : string) : redisE (outcome bool)
| Ping (ctx : Context) : redisE (option error).

Module RedsyncLocker.

(** The struct: [rsync] and [rdb] are pointers, here the address of the
    server they were built for, or [None] for nil. *)
Record t : Type := {
  rsync : option string;
  rdb : option string
}.

(** What the returned closure captures. *)
Record unlockFunc : Type := { mutex : string; userID : Z; lockKey : string }.

(** [func (l *RedsyncLocker) LockUser].  The receiver is dereferenced
    without a nil check: the embedding covers receivers built by
    [NewRedsyncLocker]. *)
Definition LockUser (l : option t) (ctx : Context) (userID : Z)
  : prog redisE (outcome unlockFunc) :=
  let lockKey := "user-lock-" ++ Sprintf_d userID in
  let mutex := lockKey in
  err <- trigger (MutexLockContext ctx mutex) ;;
  match err with
  | Some err => Ret (Fail err)
  | None => Ret (Ok {| mutex := mutex; userID := userID; lockKey := lockKey |})
  end.

(** The body of the closure returned by [LockUser]. *)
Definition Call (f : unlockFunc) : prog redisE unit :=
  trigger (MutexUnlock (mutex f)) ;;; Ret tt.

(** [func (l *RedsyncLocker) HealthCheck]. *)
Definition HealthCheck (l : option t) (ctx : Context)
  : prog redisE (option error) :=
  match l with
  | None => Ret (Some (Errorf "redis client not initialized"))
  | Some l' =>
      match rdb l' with
      | None => Ret (Some (Errorf "redis client not initialized"))
      | Some _ => trigger (Ping ctx)
      end
  end.

End RedsyncLocker.

#[export] Instance RedsyncLocker_DistributedLocker
  : DistributedLocker (option RedsyncLocker.t) redisE := {
  UnlockFunc := RedsyncLocker.unlockFunc;
  LockUser := RedsyncLocker.LockUser;
  Call := RedsyncLocker.Call;
  HealthCheck := RedsyncLocker.HealthCheck
}.

(** ** The etcd driver ([EtcdLocker]) *)

(** A [*concurrency.Session], named by its lease. *)
Definition Session : Type := Z.

(** Calls on the etcd client, on a session and on the mutex that
    [concurrency.NewMutex(sess, pfx)] builds. *)
Inductive etcdE : Type -> Type :=
| NewSession (ctx : Context) : etcdE (outcome Session)
| MutexLock (ctx : Context) (sess : Session) (pfx : string)
    : etcdE (option error)
| EtcdMutexUnlock (ctx : Context) (sess : Session) (pfx : string)
    : etcdE (option error)
| SessionClose (sess : Session) : etcdE (option error)
| ClientGet (ctx : Context) (key : string) : etcdE (option error).

Module EtcdLocker.

(** The struct: [client] is a pointer, here the endpoints it was built
    for, or [None] for nil. *)
Record t : Type := { client : option (list string) }.

(** What the returned closure captures. *)
Record unlockFunc : Type := {
  ctx : Context;
  sess : Session;
  userID : Z;
  lockKey : string
}.

(** [func (l *EtcdLocker) LockUser].  The receiver is dereferenced without
    a nil check: the embedding covers receivers built by
    [NewEtcdLocker]. *)
Definition LockUser (l : option t) (ctx : Context) (userID : Z)
  : prog etcdE (outcome unlockFunc) :=
  let lockKey := "/user-lock-" ++ Sprintf_d userID in
  r <- trigger (NewSession ctx) ;;
  match r with
  | Fail err => Ret (Fail err)
  | Ok sess =>
      err <- trigger (MutexLock ctx sess lockKey) ;;
      match err with
      | Some err =>
          trigger (SessionClose sess) ;;;
          Ret (Fail err)
      | None =>
          Ret (Ok {| ctx := ctx; sess := sess;
                     userID := userID; lockKey := lockKey |})
      end
  end.

(** The body of the closure returned by [LockUser]. *)
Definition Call (f : unlockFunc) : prog etcdE unit :=
  trigger (EtcdMutexUnlock (ctx f) (sess f) (lockKey f)) ;;;
  trigger (SessionClose (sess f)) ;;;
  Ret tt.

(** [func (l *EtcdLocker) HealthCheck].  The deferred [cancel()] makes no
    call on the backend. *)
Definition HealthCheck (l : option t) (ctx : Context)
  : prog etcdE (option error) :=
  match l with
  | None => Ret (Some (Errorf "etcd client not initialized"))
  | Some l' =>
      match client l' with
      | None => Ret (Some (Errorf "etcd client not initialized"))
      | Some _ =>
          let ctx := WithTimeout ctx (2 * Second) in
          trigger (ClientGet ctx "healthcheck-key")
      end
  end.

End EtcdLocker.

#[export] Instance EtcdLocker_DistributedLocker
  : DistributedLocker (option EtcdLocker.t) etcdE := {
  UnlockFunc := EtcdLocker.unlockFunc;
  LockUser := EtcdLocker.LockUser;
  Call := EtcdLocker.Call;
  HealthCheck := EtcdLocker.HealthCheck
}.

(** ** The handlers of [UserServer] *)

(** The calls of a handler: on [s.locker] and on the unlock function, on
    [s.db], on the clock. *)
Definition svcE (U : Type) : Type -> Type := lockE U +' baseE.

(** What a handler returns: the response pointer and the error. *)
Definition reply (A : Type) : Type := (option A * option error)%type.

Module UserServer.

Section Handlers.

Context {U : Type}.

Definition locker_LockUser (ctx : Context) (userID : Z)
  : prog (svcE U) (outcome U) :=
  trigger (inlE (CallLockUser ctx userID)).

Definition unlock_call (unlock : U) : prog (svcE U) unit :=
  trigger (inlE (CallUnlock unlock)).

Definition db_ExecContext (ctx : Context) (query : string) (args : list arg)
  : prog (svcE U) (outcome Result) :=
  trigger (inrE (inlE (ExecContext ctx query args))).

Definition db_QueryContext (ctx : Context) (query : string) (args : list arg)
  : prog (svcE U) (outcome Rows) :=
  trigger (inrE (inlE (QueryContext ctx query args))).

Definition db_QueryRowContext (ctx : Context) (query : string)
  (args : list arg) : prog (svcE U) Row :=
  trigger (inrE (inlE (QueryRowContext ctx query args))).

Definition rows_Close : prog (svcE U) unit :=
  trigger (inrE (inlE RowsClose)).

Definition time_Now : prog (svcE U) string :=
  trigger (inrE (inrE Now)).

Definition selectUser : string :=
  "SELECT id, name, email, age, created_at, updated_at FROM users WHERE id = ?".

Definition selectUsers : string :=
  "SELECT id, name, email, age, created_at, updated_at FROM users".

Definition insertUser : string :=
  "INSERT INTO users (name, email, age, created_at, updated_at) VALUES (?, ?, ?, ?, ?)".

Definition updateUser : string :=
  "UPDATE users SET name=?, email=?, age=?, updated_at=? WHERE id=?".

Definition deleteUser : string := "DELETE FROM users WHERE id=?".

(** [func (s *UserServer) GetUser]. *)
Definition GetUser (ctx : Context) (req : pb.GetUserRequest)
  : prog (svcE U) (reply pb.GetUserResponse) :=
  r <- locker_LockUser ctx (pb.GetUserRequest_Id req) ;;
  match r with
  | Fail err => Ret (None, Some (Errorf_w "failed to acquire lock: " err))
  | Ok unlock =>
      defer (unlock_call unlock)
        (row <- db_QueryRowContext ctx selectUser
                  [IntArg (pb.GetUserRequest_Id req)] ;;
         match row with
         | Fail ErrNoRows =>
             Ret (Some {| pb.GetUserResponse_User := None;
                          pb.GetUserResponse_Success := false;
                          pb.GetUserResponse_Message := "User not found" |},
                  None)
         | Fail err => Ret (None, Some err)
         | Ok user =>
             Ret (Some {| pb.GetUserResponse_User := Some user;
                          pb.GetUserResponse_Success := true;
                          pb.GetUserResponse_Message :=
                            "User found successfully" |},
                  None)
         end)
  end.

(** The loop [for rows.Next() { ... rows.Scan ... append }] of
    [ListUsers], started with the users appended so far. *)
Fixpoint scanRows (rows : Rows) (users : list pb.User)
  : outcome (list pb.User) :=
  match rows with
  | [] => Ok users
  | Fail err :: _ => Fail err
  | Ok user :: rows' => scanRows rows' (users ++ [user])%list
  end.

(** [func (s *UserServer) ListUsers]. *)
Definition ListUsers (ctx : Context) (req : pb.ListUsersRequest)
  : prog (svcE U) (reply pb.ListUsersResponse) :=
  r <- db_QueryContext ctx selectUsers [] ;;
  match r with
  | Fail err => Ret (None, Some err)
  | Ok rows =>
      defer rows_Close
        (match scanRows rows [] with
         | Fail err => Ret (None, Some err)
         | Ok users =>
             Ret (Some {| pb.ListUsersResponse_Users := users;
                          pb.ListUsersResponse_Total :=
                            int32 (Z.of_nat (List.length users));
                          pb.ListUsersResponse_Success := true;
                          pb.ListUsersResponse_Message :=
                            "Users retrieved successfully" |},
                  None)
         end)
  end.

(** [func (s *UserServer) CreateUser]. *)
Definition CreateUser (ctx : Context) (req : pb.CreateUserRequest)
  : prog (svcE U) (reply pb.CreateUserResponse) :=
  now <- time_Now ;;
  r <- db_ExecContext ctx insertUser
         [StrArg (pb.CreateUserRequest_Name req);
          StrArg (pb.CreateUserRequest_Email req);
          IntArg (pb.CreateUserRequest_Age req);
          StrArg now; StrArg now] ;;
  match r with
  | Fail err => Ret (None, Some err)
  | Ok res =>
      match LastInsertId res with
      | Fail err => Ret (None, Some err)
      | Ok id =>
          let user :=
            {| pb.Id := int32 id;
               pb.Name := pb.CreateUserRequest_Name req;
               pb.Email := pb.CreateUserRequest_Email req;
               pb.Age := pb.CreateUserRequest_Age req;
               pb.CreatedAt := now;
               pb.UpdatedAt := now |} in
          Ret (Some {| pb.CreateUserResponse_User := Some user;
                       pb.CreateUserResponse_Success := true;
                       pb.CreateUserResponse_Message :=
                         "User created successfully" |},
               None)
      end
  end.

(** [func (s *UserServer) UpdateUser]. *)
Definition UpdateUser (ctx : Context) (req : pb.UpdateUserRequest)
  : prog (svcE U) (reply pb.UpdateUserResponse) :=
  r <- locker_LockUser ctx (pb.UpdateUserRequest_Id req) ;;
  match r with
  | Fail err => Ret (None, Some (Errorf_w "failed to acquire lock: " err))
  | Ok unlock =>
      defer (unlock_call unlock)
        (now <- time_Now ;;
         r <- db_ExecContext ctx updateUser
                [StrArg (pb.UpdateUserRequest_Name req);
                 StrArg (pb.UpdateUserRequest_Email req);
                 IntArg (pb.UpdateUserRequest_Age req);
                 StrArg now;
                 IntArg (pb.UpdateUserRequest_Id req)] ;;
         match r with
         | Fail err => Ret (None, Some err)
         | Ok res =>
             match RowsAffected res with
             | Fail err => Ret (None, Some err)
             | Ok num =>
                 if (num =? 0)%Z then
                   Ret (Some {| pb.UpdateUserResponse_User := None;
                                pb.UpdateUserResponse_Success := false;
                                pb.UpdateUserResponse_Message :=
                                  "User not found" |},
                        None)
                 else
                   row <- db_QueryRowContext ctx selectUser
                            [IntArg (pb.UpdateUserRequest_Id req)] ;;
                   match row with
                   | Fail err => Ret (None, Some err)
                   | Ok user =>
                       Ret (Some {| pb.UpdateUserResponse_User := Some user;
                                    pb.UpdateUserResponse_Success := true;
                                    pb.UpdateUserResponse_Message :=
                                      "User updated successfully" |},
                            None)
                   end
             end
         end)
  end.

(** [func (s *UserServer) DeleteUser]. *)
Definition DeleteUser (ctx : Context) (req : pb.DeleteUserRequest)
  : prog (svcE U) (reply pb.DeleteUserResponse) :=
  r <- locker_LockUser ctx (pb.DeleteUserRequest_Id req) ;;
  match r with
  | Fail err => Ret (None, Some (Errorf_w "failed to acquire lock: " err))
  | Ok unlock =>
      defer (unlock_call unlock)
        (r <- db_ExecContext ctx deleteUser
                [IntArg (pb.DeleteUserRequest_Id req)] ;;
         match r with
         | Fail err => Ret (None, Some err)
         | Ok res =>
             match RowsAffected res with
             | Fail err => Ret (None, Some err)
             | Ok num =>
                 if (num =? 0)%Z then
                   Ret (Some {| pb.DeleteUserResponse_Success := false;
                                pb.DeleteUserResponse_Message :=
                                  "User not found" |},
                        None)
                 else
                   Ret (Some {| pb.DeleteUserResponse_Success := true;
                                pb.DeleteUserResponse_Message :=
                                  "User deleted successfully" |},
                        None)
             end
         end)
  end.

End Handlers.

End UserServer.

(** ** Reading a trace *)

Section Traces.

Context {U : Type}.

(** The entry is a call on the locker interface: [LockUser] or the call of
    an unlock function. *)
Definition is_locker_call (en : entry (svcE U)) : bool :=
  match en with
  | Entry (inlE _) _ => true
  | Entry (inrE _) _ => false
  end.

(** The entry is a call of [LockUser]. *)
Definition is_LockUser (en : entry (svcE U)) : bool :=
  match en with
  | Entry (inlE (CallLockUser _ _)) _ => true
  | _ => false
  end.

(** The entry is a call of an unlock function. *)
Definition is_unlock (en : entry (svcE U)) : bool :=
  match en with
  | Entry (inlE (CallUnlock _)) _ => true
  | _ => false
  end.

(** The entry is a call on [s.db] or on rows it returned. *)
Definition is_storage_call (en : entry (svcE U)) : bool :=
  match en with
  | Entry (inrE (inlE _)) _ => true
  | _ => false
  end.

Definition count (f : entry (svcE U) -> bool) (t : list (entry (svcE U)))
  : nat :=
  List.length (filter f t).

(** The shape of the trace of a handler that took the lock: [LockUser]
    answered with [unlock], then calls that are not on the locker, then the
    call of [unlock], and nothing after it. *)
Definition locked_section (ctx : Context) (userID : Z) (unlock : U)
  (t : list (entry (svcE U))) : Prop :=
  exists mid,
    t = (Entry (inlE (CallLockUser ctx userID)) (Ok unlock) :: mid
         ++ [Entry (inlE (CallUnlock unlock)) tt])%list
    /\ forallb (fun en => negb (is_locker_call en)) mid = true.

End Traces.

(** ** A locker plugged into the handlers *)

Section Link.

Context {L : Type} {B : Type -> Type} {DL : DistributedLocker L B}.

(** A program of the driver, seen among the calls of the whole server. *)
Definition lift {X : Type} (p : prog B X) : prog (B +' baseE) X :=
  interp (fun _ e => trigger (inlE e)) p.

(** [s.locker] is [l]: a call of [LockUser] runs the driver's method and a
    call of an unlock function runs the closure's body. *)
Definition locker_impl (l : L) (X : Type) (e : svcE UnlockFunc X)
  : prog (B +' baseE) X :=
  match e with
  | inlE c =>
      match c in lockE _ X return prog (B +' baseE) X with
      | CallLockUser ctx userID => lift (LockUser l ctx userID)
      | CallUnlock unlock => lift (Call unlock)
      end
  | inrE b => trigger (inrE b)
  end.

Definition link {R : Type} (l : L) (p : prog (svcE UnlockFunc) R)
  : prog (B +' baseE) R :=
  interp (locker_impl l) p.

End Link.

(** Two worlds side by side. *)
Definition world_sum {E F : Type -> Type} {SE SF : Type}
  (we : world E SE) (wf : world F SF) : world (E +' F) (SE * SF) :=
  fun X e s =>
    match e with
    | inlE e' => let (x, s') := we X e' (fst s) in (x, (s', snd s))
    | inrE f' => let (x, s') := wf X f' (snd s) in (x, (fst s, s'))
    end.

(** ** Requests served one after the other *)

(** A call of one of the five RPCs registered by [RunServer]. *)
Inductive Request : Type :=
| GetUserRPC (ctx : Context) (req : pb.GetUserRequest)
| ListUsersRPC (ctx : Context) (req : pb.ListUsersRequest)
| CreateUserRPC (ctx : Context) (req : pb.CreateUserRequest)
| UpdateUserRPC (ctx : Context) (req : pb.UpdateUserRequest)
| DeleteUserRPC (ctx : Context) (req : pb.DeleteUserRequest).

(** What the caller of an RPC observes. *)
Inductive Response : Type :=
| GetUserReply (r : reply pb.GetUserResponse)
| ListUsersReply (r : reply pb.ListUsersResponse)
| CreateUserReply (r : reply pb.CreateUserResponse)
| UpdateUserReply (r : reply pb.UpdateUserResponse)
| DeleteUserReply (r : reply pb.DeleteUserResponse).

Section Serve.

Context {U : Type}.

Definition serve (rq : Request) : prog (svcE U) Response :=
  match rq with
  | GetUserRPC ctx req =>
      r <- UserServer.GetUser ctx req ;; Ret (GetUserReply r)
  | ListUsersRPC ctx req =>
      r <- UserServer.ListUsers ctx req ;; Ret (ListUsersReply r)
  | CreateUserRPC ctx req =>
      r <- UserServer.CreateUser ctx req ;; Ret (CreateUserReply r)
  | UpdateUserRPC ctx req =>
      r <- UserServer.UpdateUser ctx req ;; Ret (UpdateUserReply r)
  | DeleteUserRPC ctx req =>
      r <- UserServer.DeleteUser ctx req ;; Ret (DeleteUserReply r)
  end.

End Serve.

(** The responses to a sequence of requests, served one after the other by
    a server whose locker is [l], over a lock backend [wb] and a storage
    and clock [w0]. *)
Fixpoint serveAll {L : Type} {B : Type -> Type} {DL : DistributedLocker L B}
  {SB S0 : Type} (wb : world B SB) (w0 : world baseE S0) (l : L)
  (rqs : list Request) (s : SB * S0) : list Response :=
  match rqs with
  | [] => []
  | rq :: rqs' =>
      let r := run (world_sum wb w0) (link l (serve rq)) s in
      value r :: serveAll wb w0 l rqs' (final r)
  end.

(** ** Health checks *)

(** The context under which a call on a backend is made, if it takes
    one. *)
Definition redis_ctx {X : Type} (e : redisE X) : option Context :=
  match e with
  | MutexLockContext ctx _ => Some ctx
  | MutexUnlock _ => None
  | Ping ctx => Some ctx
  end.

Definition etcd_ctx {X : Type} (e : etcdE X) : option Context :=
  match e with
  | NewSession ctx => Some ctx
  | MutexLock ctx _ _ => Some ctx
  | EtcdMutexUnlock ctx _ _ => Some ctx
  | SessionClose _ => None
  | ClientGet ctx _ => Some ctx
  end.

Definition entry_ctx {B : Type -> Type}
  (ctx_of : forall X, B X -> option Context) (en : entry B)
  : option Context :=
  match en with
  | Entry e _ => ctx_of _ e
  end.

(** [HealthCheck] of the locker [l] makes exactly one call on its backend,
    and that call is made under a timeout whatever context the caller
    passes. *)
Definition bounded_round_trip {L : Type} {B : Type -> Type}
  {DL : DistributedLocker L B}
  (ctx_of : forall X, B X -> option Context) (l : L) : Prop :=
  forall (S : Type) (w : world B S) (s : S) (ctx : Context),
    exists (en : entry B) (ctx' : Context) (d : Z),
      trace (run w (HealthCheck l ctx) s) = [en]
      /\ entry_ctx ctx_of en = Some ctx'
      /\ timeout_bound ctx' = Some d.

(** ** Test doubles *)

(** A world in the manner of [MockDistributedLocker] and [MockDB] of the
    unit tests: every call is answered by the value set up for it. *)
Record Mock (U : Type) : Type := {
  onLockUser : outcome U;
  onExecContext : outcome Result;
  onQueryContext : outcome Rows;
  onQueryRowContext : Row;
  onNow : string
}.
Arguments onLockUser {U} m.
Arguments onExecContext {U} m.
Arguments onQueryContext {U} m.
Arguments onQueryRowContext {U} m.
Arguments onNow {U} m.

Definition mock {U : Type} (m : Mock U) : world (svcE U) unit :=
  fun X e s =>
    match e with
    | inlE c =>
        match c in lockE _ X return X * unit with
        | CallLockUser _ _ => (onLockUser m, s)
        | CallUnlock _ => (tt, s)
        end
    | inrE (inlE d) =>
        match d in dbE X return X * unit with
        | ExecContext _ _ _ => (onExecContext m, s)
        | QueryContext _ _ _ => (onQueryContext m, s)
        | QueryRowContext _ _ _ => (onQueryRowContext m, s)
        | RowsClose => (tt, s)
        end
    | inrE (inrE c) =>
        match c in clockE X return X * unit with
        | Now => (onNow m, s)
        end
    end.

(** An in-memory users table standing in for MySQL. *)
Record MemDB : Type := {
  nextID : Z;
  table : list pb.User
}.

Definition hasID (id : Z) (u : pb.User) : bool := (pb.Id u =? id)%Z.

Definition memExec (query : string) (args : list arg) (db : MemDB)
  : outcome Result * MemDB :=
  if String.eqb query UserServer.insertUser then
    match args with
    | [StrArg name; StrArg email; IntArg age; StrArg created; StrArg updated] =>
        let u := pb.mkUser (nextID db) name email age created updated in
        (Ok {| LastInsertId := Ok (nextID db); RowsAffected := Ok 1 |},
         {| nextID := nextID db + 1; table := (table db ++ [u])%list |})
    | _ => (Fail (errorString "sql: wrong arguments"), db)
    end
  else if String.eqb query UserServer.updateUser then
    match args with
    | [StrArg name; StrArg email; IntArg age; StrArg updated; IntArg id] =>
        let upd u :=
          if hasID id u
          then pb.mkUser (pb.Id u) name email age (pb.CreatedAt u) updated
          else u in
        (Ok {| LastInsertId := Ok 0;
               RowsAffected :=
                 Ok (Z.of_nat (List.length (filter (hasID id) (table db)))) |},
         {| nextID := nextID db; table := map upd (table db) |})
    | _ => (Fail (errorString "sql: wrong arguments"), db)
    end
  else if String.eqb query UserServer.deleteUser then
    match args with
    | [IntArg id] =>
        (Ok {| LastInsertId := Ok 0;
               RowsAffected :=
                 Ok (Z.of_nat (List.length (filter (hasID id) (table db)))) |},
         {| nextID := nextID db;
            table := filter (fun u => negb (hasID id u)) (table db) |})
    | _ => (Fail (errorString "sql: wrong arguments"), db)
    end
  else (Fail (errorString "sql: unknown statement"), db).

Definition memQueryRow (query : string) (args : list arg) (db : MemDB)
  : Row :=
  if String.eqb query UserServer.selectUser then
    match args with
    | [IntArg id] =>
        match find (hasID id) (table db) with
        | Some u => Ok u
        | None => Fail ErrNoRows
        end
    | _ => Fail (errorString "sql: wrong arguments")
    end
  else Fail (errorString "sql: unknown statement").

Definition memQuery (query : string) (args : list arg) (db : MemDB)
  : outcome Rows :=
  if String.eqb query UserServer.selectUsers
  then Ok (map (@Ok pb.User) (table db))
  else Fail (errorString "sql: unknown statement").

Definition memBase : world baseE MemDB :=
  fun X e db =>
    match e with
    | inlE d =>
        match d in dbE X return X * MemDB with
        | ExecContext _ query args => memExec query args db
        | QueryContext _ query args => (memQuery query args db, db)
        | QueryRowContext _ query args => (memQueryRow query args db, db)
        | RowsClose => (tt, db)
        end
    | inrE c =>
        match c in clockE X return X * MemDB with
        | Now => ("2024-01-01T00:00:00Z", db)
        end
    end.

Definition emptyDB : MemDB := {| nextID := 1; table := [] |}.

(** A Redis standing in for the real one: the names of the mutexes that
    are locked. *)
Definition memRedis : world redisE (list string) :=
  fun X e held =>
    match e in redisE X return X * list string with
    | MutexLockContext _ name =>
        if existsb (String.eqb name) held
        then (Some (errorString "redsync: failed to acquire lock"), held)
        else (None, name :: held)
    | MutexUnlock name =>
        (Ok (existsb (String.eqb name) held),
         filter (fun n => negb (String.eqb name n)) held)
    | Ping _ => (None, held)
    end.

(** An etcd standing in for the real one: the next lease, the open
    sessions, and the locked mutexes with the session that holds each. *)
Record MemEtcd : Type := {
  nextLease : Z;
  sessions : list Session;
  mutexes : list (string * Session)
}.

Definition memEtcd : world etcdE MemEtcd :=
  fun X e st =>
    match e in etcdE X return X * MemEtcd with
    | NewSession _ =>
        (Ok (nextLease st),
         {| nextLease := nextLease st + 1;
            sessions := nextLease st :: sessions st;
            mutexes := mutexes st |})
    | MutexLock _ sess pfx =>
        if existsb (fun m => String.eqb pfx (fst m)) (mutexes st)
        then (Some (errorString "context deadline exceeded"), st)
        else (None,
              {| nextLease := nextLease st;
                 sessions := sessions st;
                 mutexes := (pfx, sess) :: mutexes st |})
    | EtcdMutexUnlock _ sess pfx =>
        (None,
         {| nextLease := nextLease st;
            sessions := sessions st;
            mutexes :=
              filter (fun m => negb (String.eqb pfx (fst m) && (snd m =? sess)%Z))
                (mutexes st) |})
    | SessionClose sess =>
        (None,
         {| nextLease := nextLease st;
            sessions := filter (fun x => negb (x =? sess)%Z) (sessions st);
            mutexes :=
              filter (fun m => negb (snd m =? sess)%Z) (mutexes st) |})
    | ClientGet _ _ => (None, st)
    end.

(** An etcd in which another holder has the mutex of user 7. *)
Definition etcdBusy : MemEtcd := {|
  nextLease := 2;
  sessions := [1];
  mutexes := [("/user-lock-7", 1)]
|}.

Definition etcdFresh : MemEtcd := {|
  nextLease := 1;
  sessions := [];
  mutexes := []
|}.

Definition redsync0 : option RedsyncLocker.t :=
  Some {| RedsyncLocker.rsync := Some "localhost:6379";
          RedsyncLocker.rdb := Some "localhost:6379" |}.

Definition etcd0 : option EtcdLocker.t :=
  Some {| EtcdLocker.client := Some ["localhost:2379"] |}.

(** Set-ups of the mocks, after the cases of the unit tests. *)
Definition alice : pb.User :=
  pb.mkUser 1 "John Doe" "john@example.com" 30
    "2024-01-01T00:00:00Z" "2024-01-01T00:00:00Z".

Definition mockOK : Mock nat := {|
  onLockUser := Ok 7%nat;
  onExecContext := Ok {| LastInsertId := Ok 1; RowsAffected := Ok 1 |};
  onQueryContext := Ok [Ok alice];
  onQueryRowContext := Ok alice;
  onNow := "2024-01-01T00:00:00Z"
|}.

Definition mockLockFails : Mock nat := {|
  onLockUser := Fail (errorString "lock acquisition failed");
  onExecContext := onExecContext mockOK;
  onQueryContext := onQueryContext mockOK;
  onQueryRowContext := onQueryRowContext mockOK;
  onNow := onNow mockOK
|}.

Definition mockExecFails : Mock nat := {|
  onLockUser := onLockUser mockOK;
  onExecContext := Fail (errorString "database error");
  onQueryContext := onQueryContext mockOK;
  onQueryRowContext := onQueryRowContext mockOK;
  onNow := onNow mockOK
|}.

Definition mockNoRows : Mock nat := {|
  onLockUser := onLockUser mockOK;
  onExecContext := Ok {| LastInsertId := Ok 0; RowsAffected := Ok 0 |};
  onQueryContext := onQueryContext mockOK;
  onQueryRowContext := onQueryRowContext mockOK;
  onNow := onNow mockOK
|}.

Definition mockRereadFails : Mock nat := {|
  onLockUser := onLockUser mockOK;
  onExecContext := onExecContext mockOK;
  onQueryContext := onQueryContext mockOK;
  onQueryRowContext := Fail (errorString "connection reset");
  onNow := onNow mockOK
|}.

(** The statements the handlers execute, with their arguments. *)
Section Statements.

Context {U : Type}.

Definition lockCall (ctx : Context) (userID : Z) : svcE U (outcome U) :=
  inlE (CallLockUser ctx userID).

Definition unlockCall (unlock : U) : svcE U unit :=
  inlE (CallUnlock unlock).

Definition nowCall : svcE U string := inrE (inrE Now).

Definition selectCall (ctx : Context) (id : Z) : svcE U Row :=
  inrE (inlE (QueryRowContext ctx UserServer.selectUser [IntArg id])).

Definition selectAllCall (ctx : Context) : svcE U (outcome Rows) :=
  inrE (inlE (QueryContext ctx UserServer.selectUsers [])).

Definition insertCall (ctx : Context) (req : pb.CreateUserRequest)
  (now : string) : svcE U (outcome Result) :=
  inrE (inlE (ExecContext ctx UserServer.insertUser
                [StrArg (pb.CreateUserRequest_Name req);
                 StrArg (pb.CreateUserRequest_Email req);
                 IntArg (pb.CreateUserRequest_Age req);
                 StrArg now; StrArg now])).

Definition updateCall (ctx : Context) (req : pb.UpdateUserRequest)
  (now : string) : svcE U (outcome Result) :=
  inrE (inlE (ExecContext ctx UserServer.updateUser
                [StrArg (pb.UpdateUserRequest_Name req);
                 StrArg (pb.UpdateUserRequest_Email req);
                 IntArg (pb.UpdateUserRequest_Age req);
                 StrArg now;
                 IntArg (pb.UpdateUserRequest_Id req)])).

Definition deleteCall (ctx : Context) (id : Z) : svcE U (outcome Result) :=
  inrE (inlE (ExecContext ctx UserServer.deleteUser [IntArg id])).

(** The first call of the trace is [LockUser] for [userID]. *)
Definition lock_first (ctx : Context) (userID : Z)
  (t : list (entry (svcE U))) : Prop :=
  exists x rest, t = Entry (lockCall ctx userID) x :: rest.

(** The responses for a user that does not exist. *)
Definition updateNotFound : pb.UpdateUserResponse :=
  {| pb.UpdateUserResponse_User := None;
     pb.UpdateUserResponse_Success := false;
     pb.UpdateUserResponse_Message := "User not found" |}.

Definition deleteNotFound : pb.DeleteUserResponse :=
  {| pb.DeleteUserResponse_Success := false;
     pb.DeleteUserResponse_Message := "User not found" |}.

(** The error a handler returns when [LockUser] failed with [err]. *)
Definition lockError (err : error) : error :=
  wrapError ("failed to acquire lock: " ++ Error err) err.

End Statements.

(** The world a handler sees once the locker [l] is plugged in: a call on
    the locker is answered by running the driver over the backend. *)
Definition implWorld {L : Type} {B : Type -> Type}
  {DL : DistributedLocker L B} {SB S0 : Type}
  (wb : world B SB) (w0 : world baseE S0) (l : L)
  : world (svcE UnlockFunc) (SB * S0) :=
  fun X e s =>
    let r := run (world_sum wb w0) (locker_impl l X e) s in
    (value r, final r).

(** The handlers' world [W], over a lock state and a storage state, answers
    the calls on the storage and the clock as [w0] does and leaves the lock
    state alone. *)
Definition over_base {U SB S0 : Type} (w0 : world baseE S0)
  (W : world (svcE U) (SB * S0)) : Prop :=
  forall X (b : baseE X) sb s0,
    W X (inrE b) (sb, s0) = (fst (w0 X b s0), (sb, snd (w0 X b s0))).

(** A session with the service: an update of a user that does not exist,
    a creation, an update, a read, a listing, a deletion, and a read of the
    deleted user. *)
Definition scenario : list Request :=
  [UpdateUserRPC Background
     {| pb.UpdateUserRequest_Id := 42;
        pb.UpdateUserRequest_Name := "Nobody";
        pb.UpdateUserRequest_Email := "nobody@example.com";
        pb.UpdateUserRequest_Age := 30 |};
   CreateUserRPC Background
     {| pb.CreateUserRequest_Name := "John Doe";
        pb.CreateUserRequest_Email := "john@example.com";
        pb.CreateUserRequest_Age := 30 |};
   UpdateUserRPC (WithTimeout Background (5 * Second))
     {| pb.UpdateUserRequest_Id := 1;
        pb.UpdateUserRequest_Name := "John Updated";
        pb.UpdateUserRequest_Email := "john.updated@example.com";
        pb.UpdateUserRequest_Age := 31 |};
   GetUserRPC Background {| pb.GetUserRequest_Id := 1 |};
   ListUsersRPC Background
     {| pb.ListUsersRequest_Page := 1; pb.ListUsersRequest_Limit := 10 |};
   DeleteUserRPC Background {| pb.DeleteUserRequest_Id := 1 |};
   GetUserRPC Background {| pb.GetUserRequest_Id := 1 |}].

(** ** Masking a DSN for the logs *)

(** [strings.Contains(s, sep)] for a separator of one byte. *)
Fixpoint Contains (s : string) (sep : ascii) : bool :=
  match s with
  | EmptyString => false
  | String c s' => Ascii.eqb c sep || Contains s' sep
  end.

(** [strings.Split(s, sep)] for a separator of one byte: the pieces of [s]
    between the occurrences of [sep], one more than there are
    occurrences. *)
Fixpoint Split (s : string) (sep : ascii) : list string :=
  match s with
  | EmptyString => [EmptyString]
  | String c s' =>
      if Ascii.eqb c sep then EmptyString :: Split s' sep
      else
        match Split s' sep with
        | p :: ps => String c p :: ps
        | [] => [String c EmptyString]
        end
  end.

(** [func maskDSN(dsn string) string]. *)
Definition maskDSN (dsn : string) : string :=
  if String.eqb dsn "" then ""
  else if Contains dsn "@" then
    match Split dsn "@" with
    | [userPass; hostPart] =>
        if Contains userPass ":" then
          match Split userPass ":" with
          | user :: _ :: _ => user ++ ":****@" ++ hostPart
          | _ => dsn
          end
        else dsn
    | _ => dsn
    end
  else dsn.

(** ** The health endpoint *)

(** Calls on the [http.ResponseWriter] of a request. *)
Inductive httpE : Type -> Type :=
| WriteHeader (statusCode : Z) : httpE unit
| Write (body : string) : httpE unit.

(** [mainDB.Ping()]. *)
Inductive sqlE : Type -> Type :=
| DBPing : sqlE (option error).

Definition StatusOK : Z := 200.
Definition StatusInternalServerError : Z := 500.

(** The package variables that the handler of [/healthz] reads: [mainDB]
    (here the DSN it was opened with, or [None] for nil),
    [checkExternalHealth] and [globalLocker]. *)
Record Globals (L : Type) : Type := {
  mainDB : option string;
  checkExternalHealth : bool;
  globalLocker : option L
}.
Arguments mainDB {L} g.
Arguments checkExternalHealth {L} g.
Arguments globalLocker {L} g.

Definition healthzE (B : Type -> Type) : Type -> Type :=
  httpE +' (sqlE +' B).

Section Healthz.

Context {L : Type} {B : Type -> Type} {DL : DistributedLocker L B}.

Definition liftH {X : Type} (p : prog B X) : prog (healthzE B) X :=
  interp (fun _ e => trigger (inrE (inrE e))) p.

(** [w.WriteHeader(code); w.Write([]byte(body)); return]. *)
Definition respond (code : Z) (body : string) : prog (healthzE B) unit :=
  trigger (inlE (WriteHeader code)) ;;;
  trigger (inlE (Write body)) ;;;
  Ret tt.

(** The second half of the function that [RunServer] registers for
    [/healthz], from [if checkExternalHealth] to the end; [rctx] is
    [r.Context()].  The deferred [cancel()] makes no call. *)
Definition externalCheck (g : Globals L) (rctx : Context)
  : prog (healthzE B) unit :=
  if checkExternalHealth g then
    let ctx := WithTimeout rctx (2 * Second) in
    match globalLocker g with
    | Some l =>
        err <- liftH (HealthCheck l ctx) ;;
        match err with
        | Some err =>
            respond StatusInternalServerError
              ("external error: " ++ Error err)
        | None => respond StatusOK "ok"
        end
    | None => respond StatusOK "ok"
    end
  else respond StatusOK "ok".

(** The function that [RunServer] registers for [/healthz]: the check of
    the database, which returns early when the ping fails, and then the
    second half. *)
Definition healthz (g : Globals L) (rctx : Context) : prog (healthzE B) unit :=
  match mainDB g with
  | Some _ =>
      err <- trigger (inrE (inlE DBPing)) ;;
      match err with
      | Some err =>
          respond StatusInternalServerError ("db error: " ++ Error err)
      | None => externalCheck g rctx
      end
  | None => externalCheck g rctx
  end.

(** The entry is a call on the response writer. *)
Definition is_http (en : entry (healthzE B)) : bool :=
  match en with
  | Entry (inlE _) _ => true
  | _ => false
  end.

(** The entry is a call on the lock backend. *)
Definition is_backend (en : entry (healthzE B)) : bool :=
  match en with
  | Entry (inrE (inrE _)) _ => true
  | _ => false
  end.

(** The entry, when it is a call on the lock backend that takes a context,
    is made under a timeout of at most [bound]. *)
Definition within (ctx_of : forall X, B X -> option Context) (bound : Z)
  (en : entry (healthzE B)) : Prop :=
  match en with
  | Entry (inrE (inrE e)) _ =>
      forall ctx, ctx_of _ e = Some ctx ->
        exists d, timeout_bound ctx = Some d /\ d <= bound
  | _ => True
  end.

End Healthz.

(** ** The client ([internal/client/client.go]) *)

(** A [*grpc.ClientConn], named by the address it was dialled for. *)
Definition Conn : Type := string.

(** [grpc.Dial], [conn.Close] and the five methods of
    [pb.UserServiceClient]. *)
Inductive rpcE : Type -> Type :=
| Dial (serverAddr : string) : rpcE (outcome Conn)
| ConnClose (conn : Conn) : rpcE (option error)
| RPCGetUser (ctx : Context) (req : pb.GetUserRequest)
    : rpcE (outcome pb.GetUserResponse)
| RPCListUsers (ctx : Context) (req : pb.ListUsersRequest)
    : rpcE (outcome pb.ListUsersResponse)
| RPCCreateUser (ctx : Context) (req : pb.CreateUserRequest)
    : rpcE (outcome pb.CreateUserResponse)
| RPCUpdateUser (ctx : Context) (req : pb.UpdateUserRequest)
    : rpcE (outcome pb.UpdateUserResponse)
| RPCDeleteUser (ctx : Context) (req : pb.DeleteUserRequest)
    : rpcE (outcome pb.DeleteUserResponse).

(** How a Go function ends: it returns, or it panics. *)
Inductive exit (A : Type) : Type :=
| Returns (a : A)
| Panics.
Arguments Returns {A} a.
Arguments Panics {A}.

Module UserClient.

Record t : Type := {
  client : Conn;
  conn : option Conn
}.

(** [func NewUserClient]. *)
Definition NewUserClient (serverAddr : string)
  : prog rpcE (option t * option error) :=
  r <- trigger (Dial serverAddr) ;;
  match r with
  | Fail err => Ret (None, Some (Errorf ("failed to connect: " ++ Error err)))
  | Ok conn => Ret (Some {| client := conn; conn := Some conn |}, None)
  end.

(** [func (c *UserClient) Close]. *)
Definition Close (c : t) : prog rpcE (option error) :=
  match conn c with
  | Some cn => trigger (ConnClose cn)
  | None => Ret None
  end.

(** [func (c *UserClient) CreateUser]. *)
Definition CreateUser (c : t) (name email : string) (age : Z)
  : prog rpcE (reply pb.User) :=
  let ctx := WithTimeout Background (Second * 10) in
  let req := {| pb.CreateUserRequest_Name := name;
                pb.CreateUserRequest_Email := email;
                pb.CreateUserRequest_Age := age |} in
  r <- trigger (RPCCreateUser ctx req) ;;
  match r with
  | Fail err =>
      Ret (None, Some (Errorf ("failed to create user: " ++ Error err)))
  | Ok resp =>
      if negb (pb.CreateUserResponse_Success resp) then
        Ret (None, Some (Errorf ("failed to create user: "
                                 ++ pb.CreateUserResponse_Message resp)))
      else
        match pb.CreateUserResponse_User resp with
        | None =>
            Ret (None,
                 Some (Errorf "server returned nil user despite success"))
        | Some user => Ret (Some user, None)
        end
  end.

(** [func (c *UserClient) GetUser]. *)
Definition GetUser (c : t) (id : Z) : prog rpcE (reply pb.User) :=
  let ctx := WithTimeout Background (Second * 10) in
  let req := {| pb.GetUserRequest_Id := id |} in
  r <- trigger (RPCGetUser ctx req) ;;
  match r with
  | Fail err =>
      Ret (None, Some (Errorf ("failed to get user: " ++ Error err)))
  | Ok resp =>
      if negb (pb.GetUserResponse_Success resp) then
        Ret (None, Some (Errorf ("failed to get user: "
                                 ++ pb.GetUserResponse_Message resp)))
      else
        match pb.GetUserResponse_User resp with
        | None =>
            Ret (None,
                 Some (Errorf "server returned nil user despite success"))
        | Some user => Ret (Some user, None)
        end
  end.

(** [func (c *UserClient) ListUsers]: returns the slice of users and the
    error. *)
Definition ListUsers (c : t)
  : prog rpcE (option (list pb.User) * option error) :=
  let ctx := WithTimeout Background (Second * 10) in
  let req := {| pb.ListUsersRequest_Page := 1;
                pb.ListUsersRequest_Limit := 100 |} in
  r <- trigger (RPCListUsers ctx req) ;;
  match r with
  | Fail err =>
      Ret (None, Some (Errorf ("failed to list users: " ++ Error err)))
  | Ok resp =>
      if negb (pb.ListUsersResponse_Success resp) then
        Ret (None, Some (Errorf ("failed to list users: "
                                 ++ pb.ListUsersResponse_Message resp)))
      else Ret (Some (pb.ListUsersResponse_Users resp), None)
  end.

(** [func (c *UserClient) UpdateUser].  After the check of [Success] the
    function reads [resp.User.Id] for its log line without a nil check:
    with a nil [User] it panics. *)
Definition UpdateUser (c : t) (id : Z) (name email : string) (age : Z)
  : prog rpcE (exit (reply pb.User)) :=
  let ctx := WithTimeout Background (Second * 10) in
  let req := {| pb.UpdateUserRequest_Id := id;
                pb.UpdateUserRequest_Name := name;
                pb.UpdateUserRequest_Email := email;
                pb.UpdateUserRequest_Age := age |} in
  r <- trigger (RPCUpdateUser ctx req) ;;
  match r with
  | Fail err =>
      Ret (Returns
             (None, Some (Errorf ("failed to update user: " ++ Error err))))
  | Ok resp =>
      if negb (pb.UpdateUserResponse_Success resp) then
        Ret (Returns
               (None, Some (Errorf ("failed to update user: "
                                    ++ pb.UpdateUserResponse_Message resp))))
      else
        match pb.UpdateUserResponse_User resp with
        | None => Ret Panics
        | Some user => Ret (Returns (Some user, None))
        end
  end.

(** [func (c *UserClient) DeleteUser]. *)
Definition DeleteUser (c : t) (id : Z) : prog rpcE (option error) :=
  let ctx := WithTimeout Background (Second * 10) in
  let req := {| pb.DeleteUserRequest_Id := id |} in
  r <- trigger (RPCDeleteUser ctx req) ;;
  match r with
  | Fail err => Ret (Some (Errorf ("failed to delete user: " ++ Error err)))
  | Ok resp =>
      if negb (pb.DeleteUserResponse_Success resp) then
        Ret (Some (Errorf ("failed to delete user: "
                           ++ pb.DeleteUserResponse_Message resp)))
      else Ret None
  end.

End UserClient.

(** The trace ends with one status line and one body, written in that
    order, and holds no other call on the response writer. *)
Definition responds_once {B : Type -> Type}
  (t : list (entry (healthzE B))) (code : Z) (body : string) : Prop :=
  exists pre,
    t = (pre ++ [Entry (inlE (WriteHeader code)) tt;
                 Entry (inlE (Write body)) tt])%list
    /\ forallb (fun en => negb (is_http en)) pre = true.

(** What the health endpoint may answer. *)
Definition verdict (code : Z) (body : string) : Prop :=
  (code = StatusOK /\ body = "ok")
  \/ (code = StatusInternalServerError
      /\ exists err, body = "db error: " ++ Error err
                     \/ body = "external error: " ++ Error err).

(** A world for the health endpoint: the response writer accepts every
    call, the database answers the ping with [ping], and the lock backend
    is [wb]. *)
Definition healthWorld {B : Type -> Type} {SB : Type}
  (ping : option error) (wb : world B SB) : world (healthzE B) SB :=
  fun X e s =>
    match e with
    | inlE h =>
        match h in httpE X return X * SB with
        | WriteHeader _ => (tt, s)
        | Write _ => (tt, s)
        end
    | inrE (inlE q) =>
        match q in sqlE X return X * SB with
        | DBPing => (ping, s)
        end
    | inrE (inrE b) => wb X b s
    end.

(** A world for the client in the manner of [MockUserServiceClient]: every
    call is answered by the value set up for it. *)
Record MockRPC : Type := {
  onDial : outcome Conn;
  onConnClose : option error;
  onRPCGetUser : outcome pb.GetUserResponse;
  onRPCListUsers : outcome pb.ListUsersResponse;
  onRPCCreateUser : outcome pb.CreateUserResponse;
  onRPCUpdateUser : outcome pb.UpdateUserResponse;
  onRPCDeleteUser : outcome pb.DeleteUserResponse
}.

Definition mockRPC (m : MockRPC) : world rpcE unit :=
  fun X e s =>
    match e in rpcE X return X * unit with
    | Dial _ => (onDial m, s)
    | ConnClose _ => (onConnClose m, s)
    | RPCGetUser _ _ => (onRPCGetUser m, s)
    | RPCListUsers _ _ => (onRPCListUsers m, s)
    | RPCCreateUser _ _ => (onRPCCreateUser m, s)
    | RPCUpdateUser _ _ => (onRPCUpdateUser m, s)
    | RPCDeleteUser _ _ => (onRPCDeleteUser m, s)
    end.

Definition globalsRedis : Globals (option RedsyncLocker.t) := {|
  mainDB := Some "testuser:testpass@tcp(localhost:3306)/testdb";
  checkExternalHealth := true;
  globalLocker := Some redsync0
|}.

Definition globalsEtcd : Globals (option EtcdLocker.t) := {|
  mainDB := Some "testuser:testpass@tcp(localhost:3306)/testdb";
  checkExternalHealth := true;
  globalLocker := Some etcd0
|}.

(** ** Which row a statement touches *)

Section OnRow.

Context {U : Type}.

(** The argument is the identifier [id]. *)
Definition arg_is (id : Z) (a : option arg) : bool :=
  match a with
  | Some (IntArg n) => (n =? id)%Z
  | _ => false
  end.

Definition last_arg (args : list arg) : option arg :=
  match rev args with
  | a :: _ => Some a
  | [] => None
  end.

(** The entry, when it is a call on the storage, is a statement on one
    row whose last argument, the one of [WHERE id = ?], is [id]. *)
Definition on_row (id : Z) (en : entry (svcE U)) : bool :=
  match en with
  | Entry (inrE (inlE d)) _ =>
      match d with
      | ExecContext _ _ args => arg_is id (last_arg args)
      | QueryRowContext _ _ args => arg_is id (last_arg args)
      | QueryContext _ _ _ => false
      | RowsClose => false
      end
  | _ => true
  end.

End OnRow.

(** The context of every call of the client: ten seconds from the
    background context. *)
Definition clientCtx : Context := WithTimeout Background (Second * 10).

Definition mockRPCUpdated : MockRPC := {|
  onDial := Ok "localhost:50051";
  onConnClose := None;
  onRPCGetUser :=
    Ok {| pb.GetUserResponse_User := None;
          pb.GetUserResponse_Success := false;
          pb.GetUserResponse_Message := "User not found" |};
  onRPCListUsers := Fail (errorString "rpc error: code = Unavailable");
  onRPCCreateUser :=
    Ok {| pb.CreateUserResponse_User := Some alice;
          pb.CreateUserResponse_Success := true;
          pb.CreateUserResponse_Message := "User created successfully" |};
  onRPCUpdateUser :=
    Ok {| pb.UpdateUserResponse_User := Some alice;
          pb.UpdateUserResponse_Success := true;
          pb.UpdateUserResponse_Message := "User updated successfully" |};
  onRPCDeleteUser :=
    Ok {| pb.DeleteUserResponse_Success := false;
          pb.DeleteUserResponse_Message := "User not found" |}
|}.

Definition client0 : UserClient.t :=
  {| UserClient.client := "localhost:50051";
     UserClient.conn := Some "localhost:50051" |}.

(** ** Traces of a handler over a driver *)

Section Sections.

Context {B : Type -> Type}.

(** A call on the storage or the clock, seen among the calls of the whole
    server. *)
Definition base_entry (en : entry baseE) : entry (B +' baseE) :=
  match en with
  | Entry e x => Entry (inrE e) x
  end.

End Sections.

(** With the Redis driver: the mutex [key] is locked, then come calls on
    the storage and the clock only, then the mutex is unlocked, and
    nothing follows. *)
Definition redis_section (ctx : Context) (key : string)
  (t : list (entry (redisE +' baseE))) : Prop :=
  exists mid x,
    t = (Entry (inlE (MutexLockContext ctx key)) None
         :: map base_entry mid
         ++ [Entry (inlE (MutexUnlock key)) x])%list.

(** With the etcd driver: a session is opened and the mutex [key] locked
    under it, then come calls on the storage and the clock only, then the
    mutex is unlocked and the session closed, and nothing follows. *)
Definition etcd_section (ctx : Context) (sess : Session) (key : string)
  (t : list (entry (etcdE +' baseE))) : Prop :=
  exists mid x y,
    t = (Entry (inlE (NewSession ctx)) (Ok sess)
         :: Entry (inlE (MutexLock ctx sess key)) None
         :: map base_entry mid
         ++ [Entry (inlE (EtcdMutexUnlock ctx sess key)) x;
             Entry (inlE (SessionClose sess)) y])%list.

(** ** Start-up *)

(** Calls made while the server is built: [sql.Open], [db.Ping], [db.Exec],
    the ping of a new Redis client and [clientv3.New]. *)
Inductive startE : Type -> Type :=
| SqlOpen (driverName dsn : string) : startE (option error)
| SqlPing : startE (option error)
| SqlExec (query : string) : startE (outcome Result)
| RedisPing (addr : string) (ctx : Context) : startE (option error)
| EtcdNew (endpoints : list string) (dialTimeout : Z) : startE (option error).

(** How a constructor ends: it returns, or [logger.Fatal] ends the
    process with a message. *)
Inductive started (A : Type) : Type :=
| Started (a : A)
| Fatal (msg : string).
Arguments Started {A} a.
Arguments Fatal {A} msg.

Definition nl : string := String (Ascii.ascii_of_nat 10) "".
Definition tab : string := String (Ascii.ascii_of_nat 9) "".

(** The statement of [initDB]. *)
Definition createTable : string :=
  "CREATE TABLE IF NOT EXISTS users (" ++ nl
  ++ tab ++ tab ++ "id INT AUTO_INCREMENT PRIMARY KEY," ++ nl
  ++ tab ++ tab ++ "name VARCHAR(255) NOT NULL," ++ nl
  ++ tab ++ tab ++ "email VARCHAR(255) NOT NULL," ++ nl
  ++ tab ++ tab ++ "age INT NOT NULL," ++ nl
  ++ tab ++ tab ++ "created_at VARCHAR(64) NOT NULL," ++ nl
  ++ tab ++ tab ++ "updated_at VARCHAR(64) NOT NULL" ++ nl
  ++ tab ++ ");".

(** [func initDB]. *)
Definition initDB : prog startE (option error) :=
  r <- trigger (SqlExec createTable) ;;
  match r with
  | Ok _ => Ret None
  | Fail err => Ret (Some err)
  end.

(** [func NewRedsyncLocker]. *)
Definition NewRedsyncLocker (redisAddr : string)
  : prog startE (started RedsyncLocker.t) :=
  let ctx := WithTimeout Background (5 * Second) in
  err <- trigger (RedisPing redisAddr ctx) ;;
  match err with
  | Some _ => Ret (Fatal "Failed to connect to Redis")
  | None =>
      Ret (Started {| RedsyncLocker.rsync := Some redisAddr;
                      RedsyncLocker.rdb := Some redisAddr |})
  end.

(** [func NewEtcdLocker]. *)
Definition NewEtcdLocker (endpoints : list string)
  : prog startE (started EtcdLocker.t) :=
  err <- trigger (EtcdNew endpoints (5 * Second)) ;;
  match err with
  | Some _ => Ret (Fatal "Failed to connect to etcd")
  | None => Ret (Started {| EtcdLocker.client := Some endpoints |})
  end.

(** The locker of a server: one of the two drivers. *)
Inductive Locker : Type :=
| UseRedsync (l : RedsyncLocker.t)
| UseEtcd (l : EtcdLocker.t).

(** What [NewUserServer] builds: the fields of the [UserServer], which are
    also the values it stores in [mainDB] and [globalLocker]. *)
Record Server : Type := {
  db : string;
  locker : Locker
}.

Section NewUserServer.

(** [strings.ToLower]. *)
Variable ToLower : string -> string.

(** [func NewUserServer]. *)
Definition NewUserServer (mysqlDSN lockType redisAddr etcdEndpoints : string)
  : prog startE (started Server) :=
  err <- trigger (SqlOpen "mysql" mysqlDSN) ;;
  match err with
  | Some _ => Ret (Fatal "Failed to open MySQL connection")
  | None =>
      err <- trigger SqlPing ;;
      match err with
      | Some _ => Ret (Fatal "Failed to ping MySQL database")
      | None =>
          err <- initDB ;;
          match err with
          | Some _ => Ret (Fatal "Failed to initialize database schema")
          | None =>
              let lt := ToLower lockType in
              if String.eqb lt "etcd" then
                if String.eqb etcdEndpoints "" then
                  Ret (Fatal "ETCD_ENDPOINTS must be set for etcd lock type")
                else
                  let endpoints := Split etcdEndpoints "," in
                  l <- NewEtcdLocker endpoints ;;
                  match l with
                  | Fatal msg => Ret (Fatal msg)
                  | Started l =>
                      Ret (Started {| db := mysqlDSN; locker := UseEtcd l |})
                  end
              else if String.eqb lt "redis" then
                if String.eqb redisAddr "" then
                  Ret (Fatal "REDIS_ADDR must be set for redis lock type")
                else
                  l <- NewRedsyncLocker redisAddr ;;
                  match l with
                  | Fatal msg => Ret (Fatal msg)
                  | Started l =>
                      Ret (Started {| db := mysqlDSN;
                                      locker := UseRedsync l |})
                  end
              else
                Ret (Fatal "Unknown LOCK_TYPE (must be 'redis' or 'etcd')")
          end
      end
  end.

End NewUserServer.

(** The entry is a call on a lock backend. *)
Definition is_lock_backend (en : entry startE) : bool :=
  match en with
  | Entry (RedisPing _ _) _ => true
  | Entry (EtcdNew _ _) _ => true
  | _ => false
  end.

(** The locker was built with its client. *)
Definition has_client (l : Locker) : bool :=
  match l with
  | UseRedsync l =>
      match RedsyncLocker.rdb l with Some _ => true | None => false end
  | UseEtcd l =>
      match EtcdLocker.client l with Some _ => true | None => false end
  end.

(** A start-up world in which every call succeeds. *)
Definition startOK : world startE unit :=
  fun X e s =>
    match e in startE X return X * unit with
    | SqlOpen _ _ => (None, s)
    | SqlPing => (None, s)
    | SqlExec _ => (Ok {| LastInsertId := Ok 0; RowsAffected := Ok 0 |}, s)
    | RedisPing _ _ => (None, s)
    | EtcdNew _ _ => (None, s)
    end.

(** [strings.ToLower] on a string of ASCII bytes, for running
    [NewUserServer] on examples. *)
Fixpoint lowerASCII (s : string) : string :=
  match s with
  | EmptyString => EmptyString
  | String c s' =>
      let n := Ascii.nat_of_ascii c in
      String (if ((65 <=? n) && (n <=? 90))%nat
              then Ascii.ascii_of_nat (n + 32)
              else c)
        (lowerASCII s')
  end.

(** The lock keys that the two drivers derive from a user identifier. *)
Definition redisKey (userID : Z) : string := "user-lock-" ++ Sprintf_d userID.
Definition etcdKey (userID : Z) : string := "/user-lock-" ++ Sprintf_d userID.

(** ** Comparing the two drivers *)

(** The context of a request. *)
Definition request_ctx (rq : Request) : Context :=
  match rq with
  | GetUserRPC ctx _ => ctx
  | ListUsersRPC ctx _ => ctx
  | CreateUserRPC ctx _ => ctx
  | UpdateUserRPC ctx _ => ctx
  | DeleteUserRPC ctx _ => ctx
  end.

(** The reply of a handler whose [LockUser] failed: a nil response and the
    wrapper around some cause. *)
Definition lock_refusal {A : Type} (v : reply A) : Prop :=
  exists err, v = (None, Some (lockError err)).

(** Two responses are equal, or both are the reply of the same handler to
    a failed [LockUser], with causes that may differ. *)
Definition same_up_to_cause (a b : Response) : Prop :=
  a = b
  \/ match a, b with
     | GetUserReply v1, GetUserReply v2 => lock_refusal v1 /\ lock_refusal v2
     | UpdateUserReply v1, UpdateUserReply v2 =>
         lock_refusal v1 /\ lock_refusal v2
     | DeleteUserReply v1, DeleteUserReply v2 =>
         lock_refusal v1 /\ lock_refusal v2
     | _, _ => False
     end.

(** A Redis backend and an etcd backend take the same decisions.  [R]
    relates the states in which they correspond, and [live] holds of the
    contexts under consideration.  From corresponding states, for a live
    context and any user: either both grant (Redis locks the mutex; etcd
    opens a session and locks the mutex under it) and, once the drivers
    have released (Redis: [Unlock]; etcd: [Unlock] under the same context,
    then [Close]), the states correspond again; or both refuse (etcd at the
    session, or at the mutex, after which the driver closes the session)
    and the states they are left in correspond. *)
Definition backends_agree {RS ES : Type}
  (wr : world redisE RS) (we : world etcdE ES)
  (live : Context -> Prop) (R : RS -> ES -> Prop) : Prop :=
  forall ctx id r e, live ctx -> R r e ->
    (exists r1 sess e1 e2,
        wr _ (MutexLockContext ctx (redisKey id)) r = (None, r1)
        /\ we _ (NewSession ctx) e = (Ok sess, e1)
        /\ we _ (MutexLock ctx sess (etcdKey id)) e1 = (None, e2)
        /\ R (snd (wr _ (MutexUnlock (redisKey id)) r1))
             (snd (we _ (SessionClose sess)
                     (snd (we _ (EtcdMutexUnlock ctx sess (etcdKey id))
                             e2)))))
    \/ (exists err1 r1,
          wr _ (MutexLockContext ctx (redisKey id)) r = (Some err1, r1)
          /\ ((exists err2 e1,
                  we _ (NewSession ctx) e = (Fail err2, e1) /\ R r1 e1)
              \/ (exists sess e1 err2 e2,
                    we _ (NewSession ctx) e = (Ok sess, e1)
                    /\ we _ (MutexLock ctx sess (etcdKey id)) e1
                       = (Some err2, e2)
                    /\ R r1 (snd (we _ (SessionClose sess) e2))))).

(** The same, for the worlds that the handlers see: from corresponding
    lock states both worlds answer [LockUser] with an unlock function, and
    the calls of the two unlock functions lead to corresponding states; or
    both answer with an error.  The storage is left alone. *)
Definition agree {U1 U2 S1 S2 S0 : Type}
  (W1 : world (svcE U1) (S1 * S0)) (W2 : world (svcE U2) (S2 * S0))
  (live : Context -> Prop) (R : S1 -> S2 -> Prop) : Prop :=
  forall ctx id s1 s2 s0, live ctx -> R s1 s2 ->
    (exists u1 s1' u2 s2',
        W1 _ (inlE (CallLockUser ctx id)) (s1, s0) = (Ok u1, (s1', s0))
        /\ W2 _ (inlE (CallLockUser ctx id)) (s2, s0) = (Ok u2, (s2', s0))
        /\ forall s0', exists s1'' s2'',
            W1 _ (inlE (CallUnlock u1)) (s1', s0') = (tt, (s1'', s0'))
            /\ W2 _ (inlE (CallUnlock u2)) (s2', s0') = (tt, (s2'', s0'))
            /\ R s1'' s2'')
    \/ (exists err1 s1' err2 s2',
          W1 _ (inlE (CallLockUser ctx id)) (s1, s0) = (Fail err1, (s1', s0))
          /\ W2 _ (inlE (CallLockUser ctx id)) (s2, s0)
             = (Fail err2, (s2', s0))
          /\ R s1' s2').

(** Two runs of a request returned the same response up to the cause of a
    lock failure and left the same storage, and the lock states
    correspond. *)
Definition same_step {U1 U2 S1 S2 S0 : Type} (R : S1 -> S2 -> Prop)
  (a : ran (svcE U1) Response (S1 * S0))
  (b : ran (svcE U2) Response (S2 * S0)) : Prop :=
  same_up_to_cause (value a) (value b)
  /\ snd (final a) = snd (final b)
  /\ R (fst (final a)) (fst (final b)).

(** The states in which the two stand-ins correspond: nothing is held, or
    another holder has the lock of user 7 in both. *)
Definition doublesAgree (held : list string) (st : MemEtcd) : Prop :=
  (held = [] /\ sessions st = [] /\ mutexes st = [])
  \/ (held = ["user-lock-7"]
      /\ sessions st = [1]
      /\ mutexes st = [("/user-lock-7", 1)]
      /\ 1 < nextLease st).

(** A request for user 7 under a deadline of five seconds. *)
Definition contended : list Request :=
  [GetUserRPC (WithTimeout Background (5 * Second))
     {| pb.GetUserRequest_Id := 7 |}].

(** An etcd standing in for the real one when the context of a request
    ends between acquisition and release: it grants as [memEtcd] does and
    refuses [Unlock] and [Close], keeping what is held. *)
Definition memEtcdEnding : world etcdE MemEtcd :=
  fun X e st =>
    match e in etcdE X return X * MemEtcd with
    | NewSession ctx => memEtcd _ (NewSession ctx) st
    | MutexLock ctx sess pfx => memEtcd _ (MutexLock ctx sess pfx) st
    | EtcdMutexUnlock _ _ _ =>
        (Some (errorString "context deadline exceeded"), st)
    | SessionClose _ =>
        (Some (errorString "context deadline exceeded"), st)
    | ClientGet ctx key => memEtcd _ (ClientGet ctx key) st
    end.

(** * Properties *)

Ltac answer w :=
  repeat match goal with
    | |- context [w ?X ?e ?s] =>
        let x := fresh "x" in
        let s' := fresh "s" in
        let E := fresh "E" in
        destruct (w X e s) as [x s'] eqn:E;
        try (match type of x with unit => destruct x end); cbn
    end.

Ltac middle :=
  first [ exists []; split; reflexivity
        | eexists [_]; split; reflexivity
        | eexists [_; _]; split; reflexivity
        | eexists [_; _; _]; split; reflexivity
        | eexists [_; _; _; _]; split; reflexivity ].

Ltac cases :=
  repeat match goal with
    | |- context [match ?x with _ => _ end] =>
        is_var x; destruct x; cbn
    | |- context [match RowsAffected ?r with _ => _ end] =>
        destruct (RowsAffected r) eqn:?; cbn
    | |- context [match LastInsertId ?r with _ => _ end] =>
        destruct (LastInsertId r) eqn:?; cbn
    | |- context [match UserServer.scanRows ?r ?a with _ => _ end] =>
        destruct (UserServer.scanRows r a) eqn:?; cbn
    | |- context [if ?b then _ else _] => destruct b eqn:?; cbn
    end.

Ltac crunch w := repeat (first [progress answer w | progress cases]).

Section HandlerFacts.

Context {U S : Type}.
Variable w : world (svcE U) S.

Lemma locked_section_count (ctx : Context) (userID : Z) (unlock : U)
  (t : list (entry (svcE U))) :
  locked_section ctx userID unlock t ->
  count is_unlock t = 1%nat /\ count is_LockUser t = 1%nat
  /\ last t (Entry (inlE (CallLockUser ctx userID)) (Ok unlock))
     = Entry (inlE (CallUnlock unlock)) tt.
Proof.
  intros [mid [-> Hmid]].
  assert (Hu : filter is_unlock mid = []).
  { induction mid as [|en mid IH]; [reflexivity|].
    cbn in Hmid. apply andb_true_iff in Hmid as [Hen Hmid].
    cbn. destruct en as [X [l|b] x]; [discriminate|].
    cbn. auto. }
  assert (Hl : filter is_LockUser mid = []).
  { induction mid as [|en mid IH]; [reflexivity|].
    cbn in Hmid. apply andb_true_iff in Hmid as [Hen Hmid].
    cbn. destruct en as [X [l|b] x]; [discriminate|].
    cbn. auto. }
  split; [|split].
  - unfold count. cbn. rewrite filter_app, Hu. reflexivity.
  - unfold count. cbn. rewrite filter_app, Hl. reflexivity.
  - rewrite app_comm_cons. apply last_last.
Qed.

Lemma GetUser_locked (ctx : Context) (req : pb.GetUserRequest)
  (s s' : S) (unlock : U) :
  w _ (inlE (CallLockUser ctx (pb.GetUserRequest_Id req))) s
    = (Ok unlock, s') ->
  locked_section ctx (pb.GetUserRequest_Id req) unlock
    (trace (run w (UserServer.GetUser ctx req) s)).
Proof.
  intros H. unfold locked_section. cbn. rewrite H. cbn.
  crunch w; middle.
Qed.

Lemma UpdateUser_locked (ctx : Context) (req : pb.UpdateUserRequest)
  (s s' : S) (unlock : U) :
  w _ (inlE (CallLockUser ctx (pb.UpdateUserRequest_Id req))) s
    = (Ok unlock, s') ->
  locked_section ctx (pb.UpdateUserRequest_Id req) unlock
    (trace (run w (UserServer.UpdateUser ctx req) s)).
Proof.
  intros H. unfold locked_section. cbn. rewrite H. cbn.
  crunch w; middle.
Qed.

Lemma DeleteUser_locked (ctx : Context) (req : pb.DeleteUserRequest)
  (s s' : S) (unlock : U) :
  w _ (inlE (CallLockUser ctx (pb.DeleteUserRequest_Id req))) s
    = (Ok unlock, s') ->
  locked_section ctx (pb.DeleteUserRequest_Id req) unlock
    (trace (run w (UserServer.DeleteUser ctx req) s)).
Proof.
  intros H. unfold locked_section. cbn. rewrite H. cbn.
  crunch w; middle.
Qed.

End HandlerFacts.

(** C1. When [LockUser] succeeds in [GetUser], [UpdateUser] or
    [DeleteUser], the unlock function it returned is called exactly once,
    as the last call before the handler returns, whatever the storage
    answers in between. *)
Theorem unlock_called_exactly_once :
  forall (U S : Type) (w : world (svcE U) S) (ctx : Context) (id : Z)
         (s s' : S) (unlock : U),
    w _ (lockCall ctx id) s = (Ok unlock, s') ->
    let once t :=
      count is_unlock t = 1%nat /\ locked_section ctx id unlock t in
    (forall req, pb.GetUserRequest_Id req = id ->
       once (trace (run w (UserServer.GetUser ctx req) s)))
    /\ (forall req, pb.UpdateUserRequest_Id req = id ->
          once (trace (run w (UserServer.UpdateUser ctx req) s)))
    /\ (forall req, pb.DeleteUserRequest_Id req = id ->
          once (trace (run w (UserServer.DeleteUser ctx req) s))).
Proof.
  intros U S w ctx id s s' unlock H once.
  assert (Honce : forall t, locked_section ctx id unlock t -> once t).
  { intros t Ht. split; [|exact Ht].
    destruct (locked_section_count ctx id unlock t Ht) as [Hc _].
    exact Hc. }
  split; [|split]; intros req <-; apply Honce.
  - eapply GetUser_locked; eassumption.
  - eapply UpdateUser_locked; eassumption.
  - eapply DeleteUser_locked; eassumption.
Qed.

Lemma unlock_called_exactly_once_witness :
  count is_unlock
    (trace (run (mock mockExecFails)
              (UserServer.DeleteUser Background
                 {| pb.DeleteUserRequest_Id := 1 |}) tt)) = 1%nat
  /\ count is_unlock
       (trace (run (mock mockNoRows)
                 (UserServer.UpdateUser Background
                    {| pb.UpdateUserRequest_Id := 999;
                       pb.UpdateUserRequest_Name := "John Updated";
                       pb.UpdateUserRequest_Email := "john.updated@example.com";
                       pb.UpdateUserRequest_Age := 31 |}) tt)) = 1%nat.
Proof.
  split.
  - destruct (unlock_called_exactly_once nat unit (mock mockExecFails)
                Background 1 tt tt 7%nat eq_refl) as [_ [_ HD]].
    apply (HD {| pb.DeleteUserRequest_Id := 1 |} eq_refl).
  - destruct (unlock_called_exactly_once nat unit (mock mockNoRows)
                Background 999 tt tt 7%nat eq_refl) as [_ [HU _]].
    apply (HU {| pb.UpdateUserRequest_Id := 999;
                 pb.UpdateUserRequest_Name := "John Updated";
                 pb.UpdateUserRequest_Email := "john.updated@example.com";
                 pb.UpdateUserRequest_Age := 31 |} eq_refl).
Defined.

(** C2. [GetUser], [UpdateUser] and [DeleteUser] call [LockUser] on the
    request's identifier before anything else, and when it fails they
    return a nil response and an error after that single call: no call
    reaches the storage. *)
Theorem lock_before_storage :
  forall (U S : Type) (w : world (svcE U) S) (ctx : Context) (s : S),
    let aborted (A : Type) id err (r : ran (svcE U) (reply A) S) :=
      trace r = [Entry (lockCall ctx id) (Fail err)]
      /\ count is_storage_call (trace r) = 0%nat
      /\ fst (value r) = None
      /\ snd (value r) <> None in
    (forall req,
        let id := pb.GetUserRequest_Id req in
        let r := run w (UserServer.GetUser ctx req) s in
        lock_first ctx id (trace r)
        /\ forall err s', w _ (lockCall ctx id) s = (Fail err, s') ->
                          aborted _ id err r)
    /\ (forall req,
          let id := pb.UpdateUserRequest_Id req in
          let r := run w (UserServer.UpdateUser ctx req) s in
          lock_first ctx id (trace r)
          /\ forall err s', w _ (lockCall ctx id) s = (Fail err, s') ->
                            aborted _ id err r)
    /\ (forall req,
          let id := pb.DeleteUserRequest_Id req in
          let r := run w (UserServer.DeleteUser ctx req) s in
          lock_first ctx id (trace r)
          /\ forall err s', w _ (lockCall ctx id) s = (Fail err, s') ->
                            aborted _ id err r).
Proof.
  intros U S w ctx s aborted.
  split; [|split]; intros req id r; subst id r; split.
  all: try (intros err s' H; unfold aborted, lockCall in *; cbn;
            rewrite H; cbn; repeat split; discriminate).
  all: unfold lock_first, lockCall; cbn;
    destruct (w _ (inlE (CallLockUser ctx _)) s) as [x s1]; cbn;
    eexists; eexists; reflexivity.
Qed.

Lemma lock_before_storage_witness :
  trace (run (mock mockLockFails)
           (UserServer.GetUser Background {| pb.GetUserRequest_Id := 1 |}) tt)
  = [Entry (lockCall Background 1)
       (Fail (errorString "lock acquisition failed"))].
Proof.
  destruct (lock_before_storage nat unit (mock mockLockFails) Background tt)
    as [HG _].
  destruct (HG {| pb.GetUserRequest_Id := 1 |}) as [_ HF].
  apply (HF (errorString "lock acquisition failed") tt eq_refl).
Defined.

(** C8. Whatever the cause [err] of a failed [LockUser], each of
    [GetUser], [UpdateUser] and [DeleteUser] returns a nil response and the
    same kind of error: the wrapper built by
    [fmt.Errorf("failed to acquire lock: %w", err)]. *)
Theorem lock_failure_uniform :
  forall (U S : Type) (w : world (svcE U) S) (ctx : Context) (id : Z)
         (s s' : S) (err : error),
    w _ (lockCall ctx id) s = (Fail err, s') ->
    Error (lockError err) = "failed to acquire lock: " ++ Error err
    /\ kind_of (lockError err) = KWrapError
    /\ (forall req, pb.GetUserRequest_Id req = id ->
          value (run w (UserServer.GetUser ctx req) s)
          = (None, Some (lockError err)))
    /\ (forall req, pb.UpdateUserRequest_Id req = id ->
          value (run w (UserServer.UpdateUser ctx req) s)
          = (None, Some (lockError err)))
    /\ (forall req, pb.DeleteUserRequest_Id req = id ->
          value (run w (UserServer.DeleteUser ctx req) s)
          = (None, Some (lockError err))).
Proof.
  intros U S w ctx id s s' err H. unfold lockCall in H.
  repeat split; intros req <-; cbn; rewrite H; reflexivity.
Qed.

Lemma lock_failure_uniform_witness :
  value (run (mock mockLockFails)
           (UserServer.UpdateUser Background
              {| pb.UpdateUserRequest_Id := 1;
                 pb.UpdateUserRequest_Name := "John Updated";
                 pb.UpdateUserRequest_Email := "john.updated@example.com";
                 pb.UpdateUserRequest_Age := 31 |}) tt)
  = (None,
     Some (wrapError "failed to acquire lock: lock acquisition failed"
             (errorString "lock acquisition failed"))).
Proof.
  destruct (lock_failure_uniform nat unit (mock mockLockFails) Background 1
              tt tt (errorString "lock acquisition failed") eq_refl)
    as [_ [_ [_ [HU _]]]].
  apply (HU {| pb.UpdateUserRequest_Id := 1;
               pb.UpdateUserRequest_Name := "John Updated";
               pb.UpdateUserRequest_Email := "john.updated@example.com";
               pb.UpdateUserRequest_Age := 31 |} eq_refl).
Defined.

(** C3. In [UpdateUser] and [DeleteUser], a statement that executes
    without error and affects zero rows gives the response "User not found"
    with [Success] false and a nil error; a statement that fails, or whose
    count of affected rows cannot be read, gives a nil response and the
    error; the two replies differ. *)
Theorem zero_rows_is_not_found :
  forall (U S : Type) (w : world (svcE U) S) (ctx : Context)
         (s s1 : S) (unlock : U) (id : Z),
    w _ (lockCall ctx id) s = (Ok unlock, s1) ->
    (forall req now s2,
        pb.UpdateUserRequest_Id req = id ->
        w _ nowCall s1 = (now, s2) ->
        let r := value (run w (UserServer.UpdateUser ctx req) s) in
        (forall res s3,
            w _ (updateCall ctx req now) s2 = (Ok res, s3) ->
            RowsAffected res = Ok 0 ->
            r = (Some updateNotFound, None))
        /\ (forall err s3,
              w _ (updateCall ctx req now) s2 = (Fail err, s3) ->
              r = (None, Some err))
        /\ (forall res err s3,
              w _ (updateCall ctx req now) s2 = (Ok res, s3) ->
              RowsAffected res = Fail err ->
              r = (None, Some err)))
    /\ (forall req,
          pb.DeleteUserRequest_Id req = id ->
          let r := value (run w (UserServer.DeleteUser ctx req) s) in
          (forall res s2,
              w _ (deleteCall ctx id) s1 = (Ok res, s2) ->
              RowsAffected res = Ok 0 ->
              r = (Some deleteNotFound, None))
          /\ (forall err s2,
                w _ (deleteCall ctx id) s1 = (Fail err, s2) ->
                r = (None, Some err))
          /\ (forall res err s2,
                w _ (deleteCall ctx id) s1 = (Ok res, s2) ->
                RowsAffected res = Fail err ->
                r = (None, Some err)))
    /\ (forall err,
          (Some updateNotFound, @None error) <> (None, Some err)
          /\ (Some deleteNotFound, @None error) <> (None, Some err)).
Proof.
  intros U S w ctx s s1 unlock id HL. unfold lockCall in HL.
  split; [|split].
  - intros req now s2 <- HN r. subst r. unfold nowCall in HN.
    split; [|split].
    + intros res s3 HE HR. unfold updateCall in HE. cbn.
      rewrite HL. cbn. rewrite HN. cbn. rewrite HE. cbn. rewrite HR. cbn.
      answer w. reflexivity.
    + intros err s3 HE. unfold updateCall in HE. cbn.
      rewrite HL. cbn. rewrite HN. cbn. rewrite HE. cbn.
      answer w. reflexivity.
    + intros res err s3 HE HR. unfold updateCall in HE. cbn.
      rewrite HL. cbn. rewrite HN. cbn. rewrite HE. cbn. rewrite HR. cbn.
      answer w. reflexivity.
  - intros req <- r. subst r. split; [|split].
    + intros res s2 HE HR. unfold deleteCall in HE. cbn.
      rewrite HL. cbn. rewrite HE. cbn. rewrite HR. cbn.
      answer w. reflexivity.
    + intros err s2 HE. unfold deleteCall in HE. cbn.
      rewrite HL. cbn. rewrite HE. cbn.
      answer w. reflexivity.
    + intros res err s2 HE HR. unfold deleteCall in HE. cbn.
      rewrite HL. cbn. rewrite HE. cbn. rewrite HR. cbn.
      answer w. reflexivity.
  - intros err. split; discriminate.
Qed.

Lemma zero_rows_is_not_found_witness :
  value (run (mock mockNoRows)
           (UserServer.DeleteUser Background
              {| pb.DeleteUserRequest_Id := 999 |}) tt)
  = (Some deleteNotFound, None)
  /\ value (run (mock mockExecFails)
              (UserServer.DeleteUser Background
                 {| pb.DeleteUserRequest_Id := 999 |}) tt)
     = (None, Some (errorString "database error")).
Proof.
  split.
  - destruct (zero_rows_is_not_found nat unit (mock mockNoRows) Background
                tt tt 7%nat 999 eq_refl) as [_ [HD _]].
    destruct (HD {| pb.DeleteUserRequest_Id := 999 |} eq_refl) as [H0 _].
    apply (H0 {| LastInsertId := Ok 0; RowsAffected := Ok 0 |} tt
             eq_refl eq_refl).
  - destruct (zero_rows_is_not_found nat unit (mock mockExecFails) Background
                tt tt 7%nat 999 eq_refl) as [_ [HD _]].
    destruct (HD {| pb.DeleteUserRequest_Id := 999 |} eq_refl) as [_ [HF _]].
    apply (HF (errorString "database error") tt eq_refl).
Defined.

(** C7. An [UpdateUser] that returns success made exactly these calls:
    [LockUser], the clock, the UPDATE, the SELECT of the same identifier,
    the unlock function; the user of the response is the one that SELECT
    returned, read after the write and before the lock is released.  When
    the UPDATE affected rows and the SELECT fails, the handler returns a
    nil response and the error of the SELECT. *)
Theorem update_reads_after_write :
  forall (U S : Type) (w : world (svcE U) S) (ctx : Context)
         (req : pb.UpdateUserRequest) (s : S),
    let id := pb.UpdateUserRequest_Id req in
    let r := run w (UserServer.UpdateUser ctx req) s in
    (forall resp e,
        value r = (Some resp, e) ->
        pb.UpdateUserResponse_Success resp = true ->
        exists unlock now res user,
          trace r = [Entry (lockCall ctx id) (Ok unlock);
                     Entry nowCall now;
                     Entry (updateCall ctx req now) (Ok res);
                     Entry (selectCall ctx id) (Ok user);
                     Entry (unlockCall unlock) tt]
          /\ pb.UpdateUserResponse_User resp = Some user
          /\ e = None)
    /\ (forall unlock now res num err s1 s2 s3 s4,
          w _ (lockCall ctx id) s = (Ok unlock, s1) ->
          w _ nowCall s1 = (now, s2) ->
          w _ (updateCall ctx req now) s2 = (Ok res, s3) ->
          RowsAffected res = Ok num ->
          num <> 0 ->
          w _ (selectCall ctx id) s3 = (Fail err, s4) ->
          value r = (None, Some err)
          /\ trace r = [Entry (lockCall ctx id) (Ok unlock);
                        Entry nowCall now;
                        Entry (updateCall ctx req now) (Ok res);
                        Entry (selectCall ctx id) (Fail err);
                        Entry (unlockCall unlock) tt]).
Proof.
  intros U S w ctx req s id r. subst id r. split.
  - intros resp e Hv Hs. revert Hv.
    unfold lockCall, nowCall, updateCall, selectCall, unlockCall. cbn.
    crunch w; intros Hv; inversion Hv; subst; try discriminate.
    do 4 eexists. split; [reflexivity|]. split; reflexivity.
  - intros unlock now res num err s1 s2 s3 s4 HL HN HE HR Hnum HS.
    unfold lockCall, nowCall, updateCall, selectCall, unlockCall in *. cbn.
    rewrite HL. cbn. rewrite HN. cbn. rewrite HE. cbn. rewrite HR. cbn.
    destruct (num =? 0)%Z eqn:E0; [apply Z.eqb_eq in E0; contradiction|].
    cbn. rewrite HS. cbn. answer w. split; reflexivity.
Qed.

Lemma update_reads_after_write_witness :
  value (run (mock mockRereadFails)
           (UserServer.UpdateUser Background
              {| pb.UpdateUserRequest_Id := 1;
                 pb.UpdateUserRequest_Name := "John Updated";
                 pb.UpdateUserRequest_Email := "john.updated@example.com";
                 pb.UpdateUserRequest_Age := 31 |}) tt)
  = (None, Some (errorString "connection reset"))
  /\ exists unlock now res user,
      trace (run (mock mockOK)
               (UserServer.UpdateUser Background
                  {| pb.UpdateUserRequest_Id := 1;
                     pb.UpdateUserRequest_Name := "John Updated";
                     pb.UpdateUserRequest_Email := "john.updated@example.com";
                     pb.UpdateUserRequest_Age := 31 |}) tt)
      = [Entry (lockCall Background 1) (Ok unlock);
         Entry nowCall now;
         Entry (updateCall Background
                  {| pb.UpdateUserRequest_Id := 1;
                     pb.UpdateUserRequest_Name := "John Updated";
                     pb.UpdateUserRequest_Email := "john.updated@example.com";
                     pb.UpdateUserRequest_Age := 31 |} now) (Ok res);
         Entry (selectCall Background 1) (Ok user);
         Entry (unlockCall unlock) tt]
      /\ Some alice = Some user
      /\ @None error = None.
Proof.
  split.
  - destruct (update_reads_after_write nat unit (mock mockRereadFails)
                Background
                {| pb.UpdateUserRequest_Id := 1;
                   pb.UpdateUserRequest_Name := "John Updated";
                   pb.UpdateUserRequest_Email := "john.updated@example.com";
                   pb.UpdateUserRequest_Age := 31 |} tt) as [_ HF].
    apply (HF 7%nat "2024-01-01T00:00:00Z"
             {| LastInsertId := Ok 1; RowsAffected := Ok 1 |} 1
             (errorString "connection reset") tt tt tt tt
             eq_refl eq_refl eq_refl eq_refl).
    + discriminate.
    + reflexivity.
  - destruct (update_reads_after_write nat unit (mock mockOK)
                Background
                {| pb.UpdateUserRequest_Id := 1;
                   pb.UpdateUserRequest_Name := "John Updated";
                   pb.UpdateUserRequest_Email := "john.updated@example.com";
                   pb.UpdateUserRequest_Age := 31 |} tt) as [HS _].
    apply (HS {| pb.UpdateUserResponse_User := Some alice;
                 pb.UpdateUserResponse_Success := true;
                 pb.UpdateUserResponse_Message :=
                   "User updated successfully" |} None eq_refl eq_refl).
Defined.

(** C6. [CreateUser] reads the clock and executes one INSERT; [ListUsers]
    runs one SELECT over all users and, when it succeeded, closes the rows.
    Neither makes any call on the locker. *)
Theorem create_and_list_take_no_lock :
  forall (U S : Type) (w : world (svcE U) S) (ctx : Context) (s : S),
    (forall req,
        let t := trace (run w (UserServer.CreateUser ctx req) s) in
        count is_locker_call t = 0%nat
        /\ exists now x,
            t = [Entry nowCall now; Entry (insertCall ctx req now) x])
    /\ (forall req,
          let t := trace (run w (UserServer.ListUsers ctx req) s) in
          count is_locker_call t = 0%nat
          /\ exists x,
              t = [Entry (selectAllCall ctx) x]
              \/ t = [Entry (selectAllCall ctx) x;
                      Entry (inrE (inlE RowsClose)) tt]).
Proof.
  intros U S w ctx s. split; intros req t; subst t.
  - unfold nowCall, insertCall. cbn. crunch w;
      (split; [reflexivity | do 2 eexists; reflexivity]).
  - unfold selectAllCall. cbn. crunch w;
      (split; [reflexivity | eexists; (left + right); reflexivity]).
Qed.

Lemma scanRows_all (rows : Rows) :
  forall acc users,
    UserServer.scanRows rows acc = Ok users ->
    exists us, users = (acc ++ us)%list /\ rows = map (@Ok pb.User) us.
Proof.
  induction rows as [|[u|err] rows IH]; cbn; intros acc users H.
  - exists []. inversion H. rewrite app_nil_r. split; reflexivity.
  - destruct (IH _ _ H) as [us [-> ->]].
    exists (u :: us). rewrite <- app_assoc. split; reflexivity.
  - discriminate.
Qed.

(** C10. [ListUsers] does not depend on the request: whatever [Page] and
    [Limit] are, it runs the same SELECT, without arguments and without a
    limit, over the table of users.  A response it returns holds every row
    of the result, in order, and its [Total] is the number of those users
    converted to [int32]. *)
Theorem list_ignores_pagination :
  forall (U S : Type) (w : world (svcE U) S) (ctx : Context) (s : S)
         (req : pb.ListUsersRequest),
    let r := run w (UserServer.ListUsers ctx req) s in
    (forall req', run w (UserServer.ListUsers ctx req') s = r)
    /\ (exists x rest,
          trace r
          = Entry (inrE (inlE (QueryContext ctx
               "SELECT id, name, email, age, created_at, updated_at FROM users"
               []))) x :: rest)
    /\ (forall resp e,
          value r = (Some resp, e) ->
          e = None
          /\ (exists s',
                w _ (selectAllCall ctx) s
                = (Ok (map (@Ok pb.User) (pb.ListUsersResponse_Users resp)),
                   s'))
          /\ pb.ListUsersResponse_Total resp
             = int32 (Z.of_nat (List.length (pb.ListUsersResponse_Users resp)))
          /\ (Z.of_nat (List.length (pb.ListUsersResponse_Users resp)) < 2 ^ 31
              -> pb.ListUsersResponse_Total resp
                 = Z.of_nat (List.length (pb.ListUsersResponse_Users resp)))).
Proof.
  intros U S w ctx s req r. subst r. split; [|split].
  - intros req'. reflexivity.
  - cbn. answer w. do 2 eexists. reflexivity.
  - intros resp e. unfold selectAllCall. cbn.
    crunch w; intros Hv; inversion Hv; subst; cbn.
    match goal with H : UserServer.scanRows _ _ = Ok _ |- _ =>
      destruct (scanRows_all _ _ _ H) as [us [Hus ->]] end.
    cbn in Hus. subst.
    split; [reflexivity|]. split; [eexists; reflexivity|].
    split; [reflexivity|].
    intros Hlt. unfold int32.
    change (2 ^ 31) with 2147483648 in *.
    change (2 ^ 32) with 4294967296.
    rewrite Z.mod_small by lia. lia.
Qed.

Lemma list_ignores_pagination_witness :
  pb.ListUsersResponse_Total
    {| pb.ListUsersResponse_Users := [alice];
       pb.ListUsersResponse_Total := 1;
       pb.ListUsersResponse_Success := true;
       pb.ListUsersResponse_Message := "Users retrieved successfully" |}
  = int32 (Z.of_nat (List.length [alice])).
Proof.
  destruct (list_ignores_pagination nat unit (mock mockOK) Background tt
              {| pb.ListUsersRequest_Page := 1;
                 pb.ListUsersRequest_Limit := 10 |}) as [_ [_ H]].
  destruct (H {| pb.ListUsersResponse_Users := [alice];
                 pb.ListUsersResponse_Total := 1;
                 pb.ListUsersResponse_Success := true;
                 pb.ListUsersResponse_Message :=
                   "Users retrieved successfully" |} None eq_refl)
    as [_ [_ [HT _]]].
  exact HT.
Defined.

(** C5. In the etcd driver a session is opened by [LockUser] and closed
    either by [LockUser] itself, when the mutex cannot be locked and before
    the error is returned, or by the unlock function, which first unlocks
    the mutex and then closes the session: the mutex is held only while the
    session is open, and the session does not outlive the unlock
    function. *)
Theorem etcd_session_nested :
  forall (ES : Type) (we : world etcdE ES) (l : option EtcdLocker.t)
         (ctx : Context) (userID : Z) (s s1 : ES) (sess : Session),
    we _ (NewSession ctx) s = (Ok sess, s1) ->
    let key := "/user-lock-" ++ Sprintf_d userID in
    let r := run we (EtcdLocker.LockUser l ctx userID) s in
    (forall err s2,
        we _ (MutexLock ctx sess key) s1 = (Some err, s2) ->
        value r = Fail err
        /\ exists x,
            trace r = [Entry (NewSession ctx) (Ok sess);
                       Entry (MutexLock ctx sess key) (Some err);
                       Entry (SessionClose sess) x])
    /\ (forall s2,
          we _ (MutexLock ctx sess key) s1 = (None, s2) ->
          exists f,
            value r = Ok f
            /\ trace r = [Entry (NewSession ctx) (Ok sess);
                          Entry (MutexLock ctx sess key) None]
            /\ forall s3, exists x y,
                trace (run we (EtcdLocker.Call f) s3)
                = [Entry (EtcdMutexUnlock ctx sess key) x;
                   Entry (SessionClose sess) y])
    /\ (forall f s3, exists x y,
           trace (run we (EtcdLocker.Call f) s3)
           = [Entry (EtcdMutexUnlock (EtcdLocker.ctx f) (EtcdLocker.sess f)
                       (EtcdLocker.lockKey f)) x;
              Entry (SessionClose (EtcdLocker.sess f)) y]).
Proof.
  intros ES we l ctx userID s s1 sess HS key r. subst key r.
  split; [|split].
  - intros err s2 HM. unfold EtcdLocker.LockUser.
    cbn [run bind trigger]. rewrite HS. cbn [run bind trigger value trace final].
    rewrite HM. cbn [run bind trigger value trace final].
    destruct (we _ (SessionClose sess) s2) as [x s3].
    cbn. split; [reflexivity|]. eexists. reflexivity.
  - intros s2 HM. unfold EtcdLocker.LockUser.
    cbn [run bind trigger]. rewrite HS. cbn [run bind trigger value trace final].
    rewrite HM. cbn [run bind trigger value trace final].
    eexists. split; [reflexivity|]. split; [reflexivity|].
    intros s3. unfold EtcdLocker.Call. cbn.
    destruct (we _ (EtcdMutexUnlock _ _ _) s3) as [x s4].
    destruct (we _ (SessionClose sess) s4) as [y s5].
    cbn. do 2 eexists. reflexivity.
  - intros f s3. unfold EtcdLocker.Call. cbn.
    destruct (we _ (EtcdMutexUnlock _ _ _) s3) as [x s4].
    destruct (we _ (SessionClose _) s4) as [y s5].
    cbn. do 2 eexists. reflexivity.
Qed.

Lemma etcd_session_nested_witness :
  value (run memEtcd (EtcdLocker.LockUser etcd0 Background 7) etcdBusy)
  = Fail (errorString "context deadline exceeded")
  /\ exists x,
      trace (run memEtcd (EtcdLocker.LockUser etcd0 Background 7) etcdBusy)
      = [Entry (NewSession Background) (Ok 2);
         Entry (MutexLock Background 2 ("/user-lock-" ++ Sprintf_d 7))
           (Some (errorString "context deadline exceeded"));
         Entry (SessionClose 2) x].
Proof.
  destruct (etcd_session_nested MemEtcd memEtcd etcd0 Background 7 etcdBusy
              {| nextLease := 3; sessions := [2; 1];
                 mutexes := [("/user-lock-7", 1)] |} 2 eq_refl) as [HF _].
  apply (HF (errorString "context deadline exceeded")
           {| nextLease := 3; sessions := [2; 1];
              mutexes := [("/user-lock-7", 1)] |} eq_refl).
Defined.

(** C9, as stated, fails for the Redis driver: its [HealthCheck] pings
    under the context it was given, so under the background context the
    ping is made without any timeout. *)
Lemma redis_health_check_unbounded :
  ~ bounded_round_trip (@redis_ctx) redsync0.
Proof.
  intros H.
  destruct (H (list string) memRedis [] Background)
    as [en [ctx' [d [Ht [Hc Hb]]]]].
  cbn in Ht. injection Ht as <-. cbn in Hc.
  injection Hc as <-. discriminate Hb.
Qed.

(** C9, amended.  With a client, the etcd driver's [HealthCheck] makes one
    call, a Get of "healthcheck-key" under a timeout of two seconds that it
    derives from the caller's context, and returns that call's error; the
    Redis driver's makes one call, a Ping under the caller's context as it
    is, and returns that call's error.  Without a client (a nil receiver or
    a nil client) either returns an error without calling its backend. *)
Theorem health_check_round_trip :
  forall (ctx : Context),
    (forall (l : EtcdLocker.t) (endpoints : list string),
        EtcdLocker.client l = Some endpoints ->
        bounded_round_trip (@etcd_ctx) (Some l)
        /\ forall (ES : Type) (we : world etcdE ES) (s : ES),
            let r := run we (EtcdLocker.HealthCheck (Some l) ctx) s in
            trace r
            = [Entry (ClientGet (WithTimeout ctx (2 * Second))
                        "healthcheck-key") (value r)]
            /\ exists d,
                timeout_bound (WithTimeout ctx (2 * Second)) = Some d
                /\ d <= 2 * Second)
    /\ (forall (l : RedsyncLocker.t) (addr : string),
          RedsyncLocker.rdb l = Some addr ->
          forall (RS : Type) (wr : world redisE RS) (s : RS),
            let r := run wr (RedsyncLocker.HealthCheck (Some l) ctx) s in
            trace r = [Entry (Ping ctx) (value r)])
    /\ (forall (l : EtcdLocker.t),
          EtcdLocker.client l = None ->
          EtcdLocker.HealthCheck (Some l) ctx
          = Ret (Some (errorString "etcd client not initialized")))
    /\ EtcdLocker.HealthCheck None ctx
       = Ret (Some (errorString "etcd client not initialized"))
    /\ (forall (l : RedsyncLocker.t),
          RedsyncLocker.rdb l = None ->
          RedsyncLocker.HealthCheck (Some l) ctx
          = Ret (Some (errorString "redis client not initialized")))
    /\ RedsyncLocker.HealthCheck None ctx
       = Ret (Some (errorString "redis client not initialized")).
Proof.
  intros ctx.
  assert (Hb : forall c, exists d,
             timeout_bound (WithTimeout c (2 * Second)) = Some d
             /\ d <= 2 * Second).
  { intros c. cbn [timeout_bound].
    destruct (timeout_bound c) as [d'|]; eexists; (split; [reflexivity|]); lia. }
  repeat split.
  - intros S w s c. cbn. unfold EtcdLocker.HealthCheck. rewrite H. cbn.
    destruct (w _ (ClientGet _ _) s) as [x s']. cbn.
    destruct (Hb c) as [d [Hd _]].
    eexists. exists (WithTimeout c (2 * Second)), d.
    split; [reflexivity|]. split; [reflexivity|exact Hd].
  - unfold EtcdLocker.HealthCheck. rewrite H. cbn.
    destruct (we _ (ClientGet _ _) s) as [x s']. reflexivity.
  - apply Hb.
  - intros l addr H RS wr s r. subst r.
    unfold RedsyncLocker.HealthCheck. rewrite H. cbn.
    destruct (wr _ (Ping ctx) s) as [x s']. reflexivity.
  - intros l H. unfold EtcdLocker.HealthCheck. rewrite H. reflexivity.
  - intros l H. unfold RedsyncLocker.HealthCheck. rewrite H. reflexivity.
Qed.

Lemma health_check_round_trip_witness :
  trace (run memRedis (RedsyncLocker.HealthCheck redsync0 Background) [])
  = [Entry (Ping Background) None]
  /\ trace (run memEtcd (EtcdLocker.HealthCheck etcd0 Background) etcdFresh)
     = [Entry (ClientGet (WithTimeout Background (2 * Second))
                 "healthcheck-key") None].
Proof.
  destruct (health_check_round_trip Background) as [HE [HR _]].
  split.
  - apply (HR {| RedsyncLocker.rsync := Some "localhost:6379";
                 RedsyncLocker.rdb := Some "localhost:6379" |}
              "localhost:6379" eq_refl (list string) memRedis []).
  - destruct (HE {| EtcdLocker.client := Some ["localhost:2379"] |}
                ["localhost:2379"] eq_refl) as [_ HT].
    apply (HT MemEtcd memEtcd etcdFresh).
Defined.

Section RunFacts.

Context {E : Type -> Type} {S : Type}.
Variable w : world E S.

Lemma run_bind {A B : Type} (p : prog E A) (f : A -> prog E B) :
  forall s,
    run w (bind p f) s
    = let r1 := run w p s in
      let r2 := run w (f (value r1)) (final r1) in
      Ran (value r2) (final r2) (trace r1 ++ trace r2)%list.
Proof.
  induction p as [a|X e k IH]; intros s; cbn.
  - destruct (run w (f a) s); reflexivity.
  - destruct (w X e s) as [x s']. rewrite IH. reflexivity.
Qed.

End RunFacts.

Section LinkFacts.

Context {L : Type} {B : Type -> Type} {DL : DistributedLocker L B}.
Context {SB S0 : Type}.
Variable wb : world B SB.
Variable w0 : world baseE S0.

Lemma run_lift {X : Type} (q : prog B X) :
  forall sb s0,
    value (run (world_sum wb w0) (lift q) (sb, s0)) = value (run wb q sb)
    /\ final (run (world_sum wb w0) (lift q) (sb, s0))
       = (final (run wb q sb), s0).
Proof.
  induction q as [x|Y e k IH]; intros sb s0; cbn.
  - split; reflexivity.
  - destruct (wb Y e sb) as [y sb']. cbn. apply IH.
Qed.

Lemma run_link {R : Type} (l : L) (p : prog (svcE UnlockFunc) R) :
  forall s,
    value (run (world_sum wb w0) (link l p) s)
    = value (run (implWorld wb w0 l) p s)
    /\ final (run (world_sum wb w0) (link l p) s)
       = final (run (implWorld wb w0 l) p s).
Proof.
  induction p as [r|X e k IH]; intros s.
  - split; reflexivity.
  - unfold link. cbn [interp]. rewrite run_bind. cbn [value final].
    cbn [run]. unfold implWorld at 1 3. cbn [value final].
    apply IH.
Qed.

End LinkFacts.

Section Simulation.

Context {U1 U2 S1 S2 S0 : Type}.
Variable w0 : world baseE S0.
Variable W1 : world (svcE U1) (S1 * S0).
Variable W2 : world (svcE U2) (S2 * S0).
Variable live : Context -> Prop.
Variable R : S1 -> S2 -> Prop.

Hypothesis base1 : over_base w0 W1.
Hypothesis base2 : over_base w0 W2.
Hypothesis locks : agree W1 W2 live R.

Ltac base_step :=
  rewrite ?base1, ?base2; cbn;
  match goal with
  | |- context [w0 ?X ?b ?s] =>
      let x := fresh "x" in let s' := fresh "s0'" in
      destruct (w0 X b s) as [x s']; cbn
  end.

Ltac release HR :=
  lazymatch goal with
  | |- context [W1 _ (inlE (CallUnlock _)) (_, ?s)] =>
      let E1 := fresh "E" in let E2 := fresh "E" in
      let J := fresh "J" in
      destruct (HR s) as [? [? [E1 [E2 J]]]];
      rewrite E1, E2; cbn;
      (split; [left; reflexivity | split; [reflexivity | exact J]])
  end.

Ltac refused HR :=
  cbn; split;
  [ right; split; eexists; reflexivity
  | split; [reflexivity | exact HR] ].

Ltac no_lock HR :=
  repeat (first [base_step | progress cases]);
  (split; [left; reflexivity | split; [reflexivity | exact HR]]).

Lemma serve_same (rq : Request) (s1 : S1) (s2 : S2) (s0 : S0) :
  live (request_ctx rq) -> R s1 s2 ->
  same_step R (run W1 (serve rq) (s1, s0)) (run W2 (serve rq) (s2, s0)).
Proof.
  intros HL HR. unfold same_step.
  destruct rq as [ctx req|ctx req|ctx req|ctx req|ctx req]; cbn in HL |- *.
  - destruct (locks ctx (pb.GetUserRequest_Id req) s1 s2 s0 HL HR)
      as [[u1 [s1' [u2 [s2' [L1 [L2 HU]]]]]]
         |[err1 [s1' [err2 [s2' [L1 [L2 HR']]]]]]];
      rewrite L1, L2; cbn.
    + repeat (first [base_step | progress cases]); release HU.
    + refused HR'.
  - no_lock HR.
  - no_lock HR.
  - destruct (locks ctx (pb.UpdateUserRequest_Id req) s1 s2 s0 HL HR)
      as [[u1 [s1' [u2 [s2' [L1 [L2 HU]]]]]]
         |[err1 [s1' [err2 [s2' [L1 [L2 HR']]]]]]];
      rewrite L1, L2; cbn.
    + repeat (first [base_step | progress cases]); release HU.
    + refused HR'.
  - destruct (locks ctx (pb.DeleteUserRequest_Id req) s1 s2 s0 HL HR)
      as [[u1 [s1' [u2 [s2' [L1 [L2 HU]]]]]]
         |[err1 [s1' [err2 [s2' [L1 [L2 HR']]]]]]];
      rewrite L1, L2; cbn.
    + repeat (first [base_step | progress cases]); release HU.
    + refused HR'.
Qed.

End Simulation.

Section Backends.

Context {RS ES S0 : Type}.
Variable wr : world redisE RS.
Variable we : world etcdE ES.
Variable w0 : world baseE S0.
Variable lr : option RedsyncLocker.t.
Variable le : option EtcdLocker.t.

Lemma implWorld_over_base {L : Type} {B : Type -> Type}
  {DL : DistributedLocker L B} {SB : Type} (wb : world B SB) (l : L) :
  over_base w0 (implWorld wb w0 l).
Proof.
  intros X b sb s0. unfold implWorld. cbn.
  destruct (w0 X b s0) as [x s0']. reflexivity.
Qed.

Lemma implWorld_call {L : Type} {B : Type -> Type}
  {DL : DistributedLocker L B} {SB : Type} (wb : world B SB) (l : L)
  {X : Type} (c : lockE UnlockFunc X) (q : prog B X) (sb : SB) (s0 : S0) :
  locker_impl l X (inlE c) = lift q ->
  implWorld wb w0 l X (inlE c) (sb, s0)
  = (value (run wb q sb), (final (run wb q sb), s0)).
Proof.
  intros H. unfold implWorld. rewrite H.
  destruct (run_lift wb w0 q sb s0) as [-> ->]. reflexivity.
Qed.

Lemma redis_LockUser_world (ctx : Context) (id : Z) (r : RS) (s0 : S0) :
  implWorld wr w0 lr _ (inlE (CallLockUser ctx id)) (r, s0)
  = (value (run wr (RedsyncLocker.LockUser lr ctx id) r),
     (final (run wr (RedsyncLocker.LockUser lr ctx id) r), s0)).
Proof.
  apply (implWorld_call (DL := RedsyncLocker_DistributedLocker)
           wr lr (CallLockUser ctx id)). reflexivity.
Qed.

Lemma redis_Call_world (u : RedsyncLocker.unlockFunc) (r : RS) (s0 : S0) :
  implWorld wr w0 lr _ (inlE (CallUnlock u)) (r, s0)
  = (tt, (snd (wr _ (MutexUnlock (RedsyncLocker.mutex u)) r), s0)).
Proof.
  rewrite (implWorld_call (DL := RedsyncLocker_DistributedLocker)
             wr lr (CallUnlock u) (RedsyncLocker.Call u)) by reflexivity.
  unfold RedsyncLocker.Call. cbn [run bind trigger].
  destruct (wr _ (MutexUnlock _) r) as [x r']. reflexivity.
Qed.

Lemma etcd_LockUser_world (ctx : Context) (id : Z) (e : ES) (s0 : S0) :
  implWorld we w0 le _ (inlE (CallLockUser ctx id)) (e, s0)
  = (value (run we (EtcdLocker.LockUser le ctx id) e),
     (final (run we (EtcdLocker.LockUser le ctx id) e), s0)).
Proof.
  apply (implWorld_call (DL := EtcdLocker_DistributedLocker)
           we le (CallLockUser ctx id)). reflexivity.
Qed.

Lemma etcd_Call_world (u : EtcdLocker.unlockFunc) (e : ES) (s0 : S0) :
  implWorld we w0 le _ (inlE (CallUnlock u)) (e, s0)
  = (tt,
     (snd (we _ (SessionClose (EtcdLocker.sess u))
             (snd (we _ (EtcdMutexUnlock (EtcdLocker.ctx u)
                           (EtcdLocker.sess u) (EtcdLocker.lockKey u)) e))),
      s0)).
Proof.
  rewrite (implWorld_call (DL := EtcdLocker_DistributedLocker)
             we le (CallUnlock u) (EtcdLocker.Call u)) by reflexivity.
  unfold EtcdLocker.Call. cbn [run bind trigger].
  destruct (we _ (EtcdMutexUnlock _ _ _) e) as [x e']. cbn.
  destruct (we _ (SessionClose _) e') as [y e'']. reflexivity.
Qed.

Lemma drivers_agree (live : Context -> Prop) (R : RS -> ES -> Prop) :
  backends_agree wr we live R ->
  agree (implWorld wr w0 lr) (implWorld we w0 le) live R.
Proof.
  intros H ctx id r e s0 HL HR.
  rewrite redis_LockUser_world, etcd_LockUser_world.
  unfold RedsyncLocker.LockUser, EtcdLocker.LockUser.
  unfold backends_agree, redisKey, etcdKey in H.
  destruct (H ctx id r e HL HR)
    as [[r1 [sess [e1 [e2 [L1 [L2 [L3 HR']]]]]]]
       |[err1 [r1 [L1 [[err2 [e1 [L2 HR']]]
                       |[sess [e1 [err2 [e2 [L2 [L3 HR']]]]]]]]]]].
  - left. cbn [run bind trigger]. rewrite L1, L2.
    cbn [run bind trigger value final]. rewrite L3.
    cbn [run bind trigger value final].
    do 4 eexists. split; [reflexivity|]. split; [reflexivity|].
    intros s0'. do 2 eexists.
    rewrite redis_Call_world, etcd_Call_world.
    cbn [RedsyncLocker.mutex EtcdLocker.ctx EtcdLocker.sess
         EtcdLocker.lockKey].
    split; [reflexivity|]. split; [reflexivity|exact HR'].
  - right. cbn [run bind trigger]. rewrite L1, L2.
    cbn [run bind trigger value final].
    do 4 eexists. split; [reflexivity|]. split; [reflexivity|exact HR'].
  - right. cbn [run bind trigger]. rewrite L1, L2.
    cbn [run bind trigger value final]. rewrite L3.
    cbn [run bind trigger value final].
    destruct (we _ (SessionClose sess) e2) as [x e3].
    cbn [run bind trigger value final snd] in HR' |- *.
    do 4 eexists. split; [reflexivity|]. split; [reflexivity|exact HR'].
Qed.

End Backends.

(** C4, as stated, fails.  Both stand-ins are exclusive lock tables in
    which another holder has the lock of user 7; a read of user 7 under a
    deadline is refused by both, and the two servers return different
    errors, since each wraps the cause of its own backend. *)
Lemma backends_differ_under_contention :
  serveAll memRedis memBase redsync0 contended (["user-lock-7"], emptyDB)
  = [GetUserReply
       (None,
        Some (wrapError
                "failed to acquire lock: redsync: failed to acquire lock"
                (errorString "redsync: failed to acquire lock")))]
  /\ serveAll memEtcd memBase etcd0 contended (etcdBusy, emptyDB)
     = [GetUserReply
          (None,
           Some (wrapError
                   "failed to acquire lock: context deadline exceeded"
                   (errorString "context deadline exceeded")))]
  /\ serveAll memRedis memBase redsync0 contended (["user-lock-7"], emptyDB)
     <> serveAll memEtcd memBase etcd0 contended (etcdBusy, emptyDB).
Proof.
  split; [reflexivity|]. split; [reflexivity|].
  intros H. discriminate H.
Qed.

(** C4, amended.  Served one after the other over the same storage and
    clock, the requests of a sequence get from a server whose locker is
    the Redis driver and from one whose locker is the etcd driver the same
    responses and errors, except that to a refused lock both answer nil
    with the wrapper "failed to acquire lock: " around the cause of their
    own backend.  This holds when the two backends take the same decisions:
    from corresponding states both grant or both refuse, and after the
    drivers' releases they correspond again. *)
Theorem backends_equivalent_up_to_cause :
  forall (RS ES S0 : Type) (wr : world redisE RS) (we : world etcdE ES)
         (w0 : world baseE S0) (live : Context -> Prop)
         (R : RS -> ES -> Prop)
         (lr : option RedsyncLocker.t) (le : option EtcdLocker.t),
    backends_agree wr we live R ->
    forall (rqs : list Request) (r : RS) (e : ES) (s0 : S0),
      R r e ->
      Forall (fun rq => live (request_ctx rq)) rqs ->
      Forall2 same_up_to_cause
        (serveAll wr w0 lr rqs (r, s0)) (serveAll we w0 le rqs (e, s0)).
Proof.
  intros RS ES S0 wr we w0 live R lr le HA rqs.
  induction rqs as [|rq rqs IH]; intros r e s0 HR HL; [constructor|].
  inversion HL as [|? ? Hrq Hrqs]; subst.
  cbn [serveAll].
  destruct (run_link wr w0 lr (serve rq) (r, s0)) as [V1 F1].
  destruct (run_link we w0 le (serve rq) (e, s0)) as [V2 F2].
  destruct (serve_same w0 (implWorld wr w0 lr) (implWorld we w0 le) live R
              (implWorld_over_base w0 wr lr) (implWorld_over_base w0 we le)
              (drivers_agree wr we w0 lr le live R HA)
              rq r e s0 Hrq HR) as [V [F J]].
  rewrite V1, V2, F1, F2. constructor; [exact V|].
  destruct (final (run (implWorld wr w0 lr) (serve rq) (r, s0))) as [r' s0'].
  destruct (final (run (implWorld we w0 le) (serve rq) (e, s0))) as [e' s0''].
  cbn in F, J. subst s0''. apply IH; assumption.
Qed.

Lemma Sprintf_d_inj (a b : Z) : Sprintf_d a = Sprintf_d b -> a = b.
Proof.
  unfold Sprintf_d. intros H.
  assert (Hn : forall z, Z.to_int z <> Decimal.Pos Decimal.Nil
                         /\ Z.to_int z <> Decimal.Neg Decimal.Nil).
  { intros [|p|p]; cbn; split; try discriminate;
      intros [= Hp]; apply (DecimalPos.Unsigned.to_uint_nonnil p); exact Hp. }
  apply DecimalZ.to_int_inj.
  assert (Some (Z.to_int a) = Some (Z.to_int b)) as [= ->]; [|reflexivity].
  rewrite <- (NilZero.isi (Z.to_int a)) by apply Hn.
  rewrite <- (NilZero.isi (Z.to_int b)) by apply Hn.
  rewrite H. reflexivity.
Qed.

Lemma redisKey_eqb (id : Z) :
  String.eqb (redisKey id) "user-lock-7" = (id =? 7)%Z.
Proof.
  destruct (Z.eqb_spec id 7) as [->|Hne]; [reflexivity|].
  apply String.eqb_neq. intros H. apply Hne.
  change "user-lock-7" with (redisKey 7) in H.
  unfold redisKey in H. cbn in H. injection H as H.
  exact (Sprintf_d_inj id 7 H).
Qed.

Lemma etcdKey_eqb (id : Z) :
  String.eqb (etcdKey id) "/user-lock-7" = (id =? 7)%Z.
Proof.
  destruct (Z.eqb_spec id 7) as [->|Hne]; [reflexivity|].
  apply String.eqb_neq. intros H. apply Hne.
  change "/user-lock-7" with (etcdKey 7) in H.
  unfold etcdKey in H. cbn in H. injection H as H.
  exact (Sprintf_d_inj id 7 H).
Qed.

Ltac tables H1n Hid :=
  repeat (progress
            (cbn [filter existsb negb andb orb fst snd
                  sessions mutexes nextLease];
             rewrite ?String.eqb_refl, ?redisKey_eqb, ?etcdKey_eqb,
               ?Z.eqb_refl, ?Hid, ?H1n)).

Lemma doubles_agree :
  backends_agree memRedis memEtcd (fun _ => True) doublesAgree.
Proof.
  intros ctx id held [n ss ms] _ [[-> [Hs Hm]]|[-> [Hs [Hm Hn]]]];
    cbn [sessions mutexes nextLease] in *; subst ss ms.
  - assert (Hid : True) by exact I.
    left.
    exists [redisKey id], n,
      {| nextLease := n + 1; sessions := [n]; mutexes := [] |},
      {| nextLease := n + 1; sessions := [n];
         mutexes := [(etcdKey id, n)] |}.
    split; [reflexivity|]. split; [reflexivity|]. split; [reflexivity|].
    left. unfold memRedis, memEtcd. tables Hid Hid.
    repeat split.
  - assert (H1n : (1 =? n)%Z = false) by (apply Z.eqb_neq; lia).
    destruct (Z.eqb_spec id 7) as [->|Hne].
    + right.
      exists (errorString "redsync: failed to acquire lock"), ["user-lock-7"].
      split; [reflexivity|].
      right.
      exists n, {| nextLease := n + 1; sessions := [n; 1];
                   mutexes := [("/user-lock-7", 1)] |},
        (errorString "context deadline exceeded"),
        {| nextLease := n + 1; sessions := [n; 1];
           mutexes := [("/user-lock-7", 1)] |}.
      split; [reflexivity|]. split; [reflexivity|].
      right. unfold memEtcd. tables H1n H1n.
      repeat split. lia.
    + assert (Hid : (id =? 7)%Z = false) by (apply Z.eqb_neq; exact Hne).
      left.
      exists [redisKey id; "user-lock-7"], n,
        {| nextLease := n + 1; sessions := [n; 1];
           mutexes := [("/user-lock-7", 1)] |},
        {| nextLease := n + 1; sessions := [n; 1];
           mutexes := [(etcdKey id, n); ("/user-lock-7", 1)] |}.
      split; [unfold memRedis; tables H1n Hid; reflexivity|].
      split; [reflexivity|].
      split; [unfold memEtcd; tables H1n Hid; reflexivity|].
      right. unfold memRedis, memEtcd. tables H1n Hid.
      repeat split. lia.
Qed.

Lemma backends_equivalent_up_to_cause_witness :
  Forall2 same_up_to_cause
    (serveAll memRedis memBase redsync0 (contended ++ scenario)%list
       (["user-lock-7"], emptyDB))
    (serveAll memEtcd memBase etcd0 (contended ++ scenario)%list
       (etcdBusy, emptyDB)).
Proof.
  apply (backends_equivalent_up_to_cause (list string) MemEtcd MemDB
           memRedis memEtcd memBase (fun _ => True) doublesAgree
           redsync0 etcd0 doubles_agree (contended ++ scenario)%list
           ["user-lock-7"] etcdBusy emptyDB).
  - right. repeat split.
  - repeat constructor.
Defined.

(** ** Lock keys *)

(** X1. Each driver locks, as its first step on the mutex, the key it
    derives from the user identifier, and the derivation is injective: two
    identifiers get the same key only if they are equal, so requests on
    different users never contend for one lock.  The etcd key is the Redis
    key after a slash. *)
Theorem lock_keys_injective :
  forall (a b : Z),
    (redisKey a = redisKey b -> a = b)
    /\ (etcdKey a = etcdKey b -> a = b)
    /\ etcdKey a = "/" ++ redisKey a
    /\ (forall (RS : Type) (wr : world redisE RS) l ctx s,
          exists x rest,
            trace (run wr (RedsyncLocker.LockUser l ctx a) s)
            = Entry (MutexLockContext ctx (redisKey a)) x :: rest)
    /\ (forall (ES : Type) (we : world etcdE ES) l ctx s s1 sess,
          we _ (NewSession ctx) s = (Ok sess, s1) ->
          exists x rest,
            trace (run we (EtcdLocker.LockUser l ctx a) s)
            = Entry (NewSession ctx) (Ok sess)
              :: Entry (MutexLock ctx sess (etcdKey a)) x :: rest).
Proof.
  intros a b. unfold redisKey, etcdKey.
  split; [|split; [|split; [|split]]].
  - intros H. cbn in H. injection H as H. exact (Sprintf_d_inj a b H).
  - intros H. cbn in H. injection H as H. exact (Sprintf_d_inj a b H).
  - reflexivity.
  - intros RS wr l ctx s. unfold RedsyncLocker.LockUser.
    cbn [run bind trigger].
    destruct (wr _ (MutexLockContext ctx _) s) as [x s1].
    cbn [trace]. do 2 eexists. reflexivity.
  - intros ES we l ctx s s1 sess HS. unfold EtcdLocker.LockUser.
    cbn [run bind trigger]. rewrite HS. cbn [run bind trigger trace].
    destruct (we _ (MutexLock ctx sess _) s1) as [x s2].
    cbn [trace]. do 2 eexists. reflexivity.
Qed.

Lemma lock_keys_injective_witness :
  exists x rest,
    trace (run memEtcd (EtcdLocker.LockUser etcd0 Background 7) etcdFresh)
    = Entry (NewSession Background) (Ok 1)
      :: Entry (MutexLock Background 1 (etcdKey 7)) x :: rest.
Proof.
  destruct (lock_keys_injective 7 8) as [_ [_ [_ [_ H]]]].
  apply (H MemEtcd memEtcd etcd0 Background etcdFresh
           {| nextLease := 2; sessions := [1]; mutexes := [] |} 1 eq_refl).
Defined.

(** ** [maskDSN] *)

Section SplitFacts.

Variable sep : ascii.

Lemma Contains_app (a b : string) (c : ascii) :
  Contains (a ++ b) c = Contains a c || Contains b c.
Proof.
  induction a as [|x a IH]; cbn; [reflexivity|].
  rewrite IH. apply orb_assoc.
Qed.

Lemma Split_nonempty (s : string) : Split s sep <> [].
Proof.
  destruct s as [|c s]; cbn; [discriminate|].
  destruct (Ascii.eqb c sep); [discriminate|].
  destruct (Split s sep); discriminate.
Qed.

Lemma Split_none (s : string) : Contains s sep = false -> Split s sep = [s].
Proof.
  induction s as [|c s IH]; cbn; [reflexivity|].
  intros H. apply orb_false_iff in H as [Hc Hs].
  rewrite Hc, (IH Hs). reflexivity.
Qed.

Lemma Split_app (a b : string) :
  Contains a sep = false ->
  Split (a ++ String sep b) sep = a :: Split b sep.
Proof.
  induction a as [|c a IH]; cbn.
  - intros _. rewrite Ascii.eqb_refl. reflexivity.
  - intros H. apply orb_false_iff in H as [Hc Ha].
    rewrite Hc, (IH Ha). reflexivity.
Qed.

Lemma Split_length_app (a b : string) :
  List.length (Split (a ++ String sep b) sep)
  = (List.length (Split a sep) + List.length (Split b sep))%nat.
Proof.
  induction a as [|c a IH]; cbn.
  - rewrite Ascii.eqb_refl. reflexivity.
  - destruct (Ascii.eqb c sep); cbn; [rewrite IH; reflexivity|].
    destruct (Split (a ++ String sep b) sep) as [|p ps] eqn:E1;
      [exfalso; exact (Split_nonempty _ E1)|].
    destruct (Split a sep) as [|q qs] eqn:E2;
      [exfalso; exact (Split_nonempty _ E2)|].
    cbn in *. exact IH.
Qed.

Lemma Split_pieces (s : string) :
  Forall (fun p => Contains p sep = false) (Split s sep).
Proof.
  induction s as [|c s IH]; cbn.
  - constructor; [reflexivity|constructor].
  - destruct (Ascii.eqb c sep) eqn:Hc.
    + constructor; [reflexivity|exact IH].
    + destruct (Split s sep) as [|p ps].
      * constructor; [cbn; rewrite Hc; reflexivity|constructor].
      * inversion IH; subst. constructor; [cbn; rewrite Hc|]; assumption.
Qed.

Lemma Split_pieces_other (s : string) (c : ascii) :
  Contains s c = false ->
  Forall (fun p => Contains p c = false) (Split s sep).
Proof.
  induction s as [|x s IH]; cbn.
  - intros _. constructor; [reflexivity|constructor].
  - intros H. apply orb_false_iff in H as [Hx Hs]. specialize (IH Hs).
    destruct (Ascii.eqb x sep).
    + constructor; [reflexivity|exact IH].
    + destruct (Split s sep) as [|p ps].
      * constructor; [cbn; rewrite Hx; reflexivity|constructor].
      * inversion IH; subst. constructor; [cbn; rewrite Hx|]; assumption.
Qed.

End SplitFacts.

Lemma append_assoc (a b c : string) : (a ++ b) ++ c = a ++ (b ++ c).
Proof.
  induction a as [|x a IH]; cbn; [reflexivity|]. rewrite IH. reflexivity.
Qed.

(** X2. A DSN [user:password@rest] with a single at-sign is logged as
    [user:****@rest]: what [maskDSN] returns does not depend on the
    password. *)
Theorem maskDSN_hides_password :
  forall (user pass rest : string),
    Contains user ":" = false ->
    Contains user "@" = false ->
    Contains pass "@" = false ->
    Contains rest "@" = false ->
    maskDSN (user ++ ":" ++ pass ++ "@" ++ rest) = user ++ ":****@" ++ rest.
Proof.
  intros user pass rest Hu1 Hu2 Hp Hr.
  assert (Hup : Contains (user ++ String ":" pass) "@" = false).
  { rewrite Contains_app. cbn. rewrite Hu2, Hp. reflexivity. }
  unfold maskDSN.
  replace (user ++ ":" ++ pass ++ "@" ++ rest)
    with ((user ++ String ":" pass) ++ String "@" rest)
    by (rewrite append_assoc; reflexivity).
  destruct (String.eqb_spec ((user ++ String ":" pass) ++ String "@" rest) "")
    as [E|_].
  { destruct user; discriminate E. }
  rewrite Contains_app. cbn [Contains]. rewrite Ascii.eqb_refl.
  rewrite orb_true_r.
  rewrite (Split_app _ _ _ Hup), (Split_none _ _ Hr).
  rewrite Contains_app. cbn [Contains]. rewrite Ascii.eqb_refl.
  rewrite orb_true_r.
  rewrite (Split_app _ _ _ Hu1).
  destruct (Split pass ":") as [|p ps] eqn:E;
    [exfalso; exact (Split_nonempty _ _ E)|].
  reflexivity.
Qed.

Lemma maskDSN_hides_password_witness :
  maskDSN "testuser:testpass@tcp(localhost:3306)/testdb"
  = "testuser:****@tcp(localhost:3306)/testdb".
Proof.
  apply (maskDSN_hides_password "testuser" "testpass"
           "tcp(localhost:3306)/testdb");
    reflexivity.
Defined.

(** X3. A DSN with two at-signs or more, as when the password holds one,
    is returned as it is, password included. *)
Theorem maskDSN_two_at_signs_unmasked :
  forall (a b c : string),
    maskDSN (a ++ "@" ++ b ++ "@" ++ c) = a ++ "@" ++ b ++ "@" ++ c.
Proof.
  intros a b c.
  assert (Hlen : (3 <= List.length (Split (a ++ "@" ++ b ++ "@" ++ c) "@"))%nat).
  { change (a ++ "@" ++ b ++ "@" ++ c)
      with (a ++ String "@" (b ++ String "@" c)).
    rewrite !Split_length_app.
    pose proof (Split_nonempty "@" a). pose proof (Split_nonempty "@" b).
    pose proof (Split_nonempty "@" c).
    destruct (Split a "@"), (Split b "@"), (Split c "@"); cbn;
      try contradiction; lia. }
  unfold maskDSN.
  destruct (String.eqb_spec (a ++ "@" ++ b ++ "@" ++ c) "") as [E|_].
  { symmetry. exact E. }
  destruct (Contains (a ++ "@" ++ b ++ "@" ++ c) "@"); [|reflexivity].
  destruct (Split (a ++ "@" ++ b ++ "@" ++ c) "@") as [|p1 [|p2 [|p3 ps]]];
    try reflexivity.
  cbn in Hlen. lia.
Qed.

(** X4. Masking what was masked changes nothing. *)
Theorem maskDSN_idempotent :
  forall (dsn : string), maskDSN (maskDSN dsn) = maskDSN dsn.
Proof.
  intros dsn.
  assert (H : maskDSN dsn = dsn
              \/ exists user host,
                  maskDSN dsn = user ++ ":****@" ++ host
                  /\ Contains user ":" = false
                  /\ Contains user "@" = false
                  /\ Contains host "@" = false).
  { unfold maskDSN.
    destruct (String.eqb_spec dsn "") as [->|_]; [left; reflexivity|].
    destruct (Contains dsn "@"); [|left; reflexivity].
    pose proof (Split_pieces "@" dsn) as HP.
    destruct (Split dsn "@") as [|up [|host [|p3 ps]]];
      try (left; reflexivity).
    inversion HP as [|? ? Hup HP']; subst.
    inversion HP' as [|? ? Hhost _]; subst.
    destruct (Contains up ":"); [|left; reflexivity].
    pose proof (Split_pieces ":" up) as HQ.
    pose proof (Split_pieces_other ":" up "@" Hup) as HR.
    destruct (Split up ":") as [|user [|x xs]]; try (left; reflexivity).
    inversion HQ; subst. inversion HR; subst.
    right. exists user, host. repeat split; assumption. }
  destruct H as [H|[user [host [H [H1 [H2 H3]]]]]]; rewrite H.
  - exact H.
  - apply (maskDSN_hides_password user "****" host H1 H2 eq_refl H3).
Qed.

(** ** The health endpoint *)

Section HealthzFacts.

Context {L : Type} {B : Type -> Type} {DL : DistributedLocker L B}.
Context {S : Type}.
Variable w : world (healthzE B) S.

Lemma liftH_trace {X : Type} (q : prog B X) :
  forall s,
    forallb (fun en => negb (is_http en)) (trace (run w (liftH q) s)) = true
    /\ forallb is_backend (trace (run w (liftH q) s)) = true.
Proof.
  induction q as [x|Y e k IH]; intros s; cbn.
  - split; reflexivity.
  - destruct (w Y (inrE (inrE e)) s) as [y s']. cbn. apply IH.
Qed.

Lemma respond_trace (code : Z) (body : string) (s : S) :
  trace (run w (respond code body) s)
  = [Entry (inlE (WriteHeader code)) tt; Entry (inlE (Write body)) tt].
Proof.
  cbn. answer w. reflexivity.
Qed.

End HealthzFacts.

Section HealthzShape.

Context {L : Type} {B : Type -> Type} {DL : DistributedLocker L B}.
Context {S : Type}.
Variable w : world (healthzE B) S.

Lemma externalCheck_shape (g : Globals L) (rctx : Context) (s : S) :
  exists code body,
    responds_once (trace (run w (externalCheck g rctx) s)) code body
    /\ verdict code body.
Proof.
  unfold externalCheck.
  destruct (checkExternalHealth g); [destruct (globalLocker g) as [l|]|].
  - rewrite run_bind. cbn [trace value final].
    set (r := run w (liftH (HealthCheck l (WithTimeout rctx (2 * Second)))) s).
    destruct (liftH_trace w (HealthCheck l (WithTimeout rctx (2 * Second))) s)
      as [Hh _]. fold r in Hh.
    destruct (value r) as [err|]; rewrite respond_trace;
      do 2 eexists; (split; [exists (trace r); split; [reflexivity|exact Hh]|]).
    + right. split; [reflexivity|]. exists err. right. reflexivity.
    + left. split; reflexivity.
  - rewrite respond_trace. do 2 eexists.
    split; [exists []; split; reflexivity|]. left. split; reflexivity.
  - rewrite respond_trace. do 2 eexists.
    split; [exists []; split; reflexivity|]. left. split; reflexivity.
Qed.

End HealthzShape.

(** X5. Whatever the database and the lock backend answer, the handler of
    [/healthz] writes one status line and then one body, as its last two
    calls: 200 with "ok", or 500 with the error of the check that failed
    after "db error: " or "external error: ". *)
Theorem healthz_responds_once :
  forall (L : Type) (B : Type -> Type) (DL : DistributedLocker L B)
         (S : Type) (w : world (healthzE B) S)
         (g : Globals L) (rctx : Context) (s : S),
    exists code body,
      responds_once (trace (run w (healthz g rctx) s)) code body
      /\ ((code = 200 /\ body = "ok")
          \/ (code = 500
              /\ exists err, body = "db error: " ++ Error err
                             \/ body = "external error: " ++ Error err)).
Proof.
  intros L B DL S w g rctx s. unfold healthz.
  destruct (mainDB g) as [dsn|]; [|apply externalCheck_shape].
  cbn [run bind trigger]. destruct (w _ (inrE (inlE DBPing)) s) as [[err|] s1].
  - cbn [run bind trigger value final trace].
    pose proof (respond_trace w StatusInternalServerError
                  ("db error: " ++ Error err) s1) as HR.
    cbn [run bind trigger value final trace] in HR |- *.
    exists 500, ("db error: " ++ Error err). split.
    + exists [Entry (inrE (inlE DBPing)) (Some err)].
      split; [|reflexivity]. cbn [app]. f_equal. exact HR.
    + right. split; [reflexivity|]. exists err. left. reflexivity.
  - cbn [run bind trigger value final trace].
    destruct (externalCheck_shape w g rctx s1) as [code [body [[pre [Ht Hp]] Hv]]].
    exists code, body. split; [|exact Hv].
    exists (Entry (inrE (inlE DBPing)) None :: pre). split.
    + cbn [app]. f_equal. exact Ht.
    + cbn. exact Hp.
Qed.

(** X6. When the ping of the database fails the handler of [/healthz]
    answers 500 with the database error and does not contact the lock
    backend; it never contacts the lock backend when
    [checkExternalHealth] is off or no locker is set. *)
Theorem healthz_short_circuits :
  forall (L : Type) (B : Type -> Type) (DL : DistributedLocker L B)
         (S : Type) (w : world (healthzE B) S)
         (g : Globals L) (rctx : Context) (s : S),
    let t := trace (run w (healthz g rctx) s) in
    (forall dsn err s1,
        mainDB g = Some dsn ->
        w _ (inrE (inlE DBPing)) s = (Some err, s1) ->
        t = [Entry (inrE (inlE DBPing)) (Some err);
             Entry (inlE (WriteHeader 500)) tt;
             Entry (inlE (Write ("db error: " ++ Error err))) tt])
    /\ (checkExternalHealth g = false ->
        forallb (fun en => negb (is_backend en)) t = true)
    /\ (globalLocker g = None ->
        forallb (fun en => negb (is_backend en)) t = true).
Proof.
  intros L B DL S w g rctx s t. subst t. unfold healthz, externalCheck.
  split; [|split].
  - intros dsn err s1 -> HP. cbn [run bind trigger]. rewrite HP.
    cbn. answer w. reflexivity.
  - intros ->. destruct (mainDB g); cbn; crunch w; reflexivity.
  - intros ->. destruct (mainDB g), (checkExternalHealth g); cbn;
      crunch w; reflexivity.
Qed.

Lemma healthz_short_circuits_witness :
  trace (run (healthWorld (Some (errorString "connection refused")) memRedis)
           (healthz globalsRedis Background) [])
  = [Entry (inrE (inlE DBPing)) (Some (errorString "connection refused"));
     Entry (inlE (WriteHeader 500)) tt;
     Entry (inlE (Write "db error: connection refused")) tt].
Proof.
  destruct (healthz_short_circuits _ _ _ _
              (healthWorld (Some (errorString "connection refused")) memRedis)
              globalsRedis Background []) as [H _].
  apply (H "testuser:testpass@tcp(localhost:3306)/testdb"
           (errorString "connection refused") [] eq_refl eq_refl).
Defined.

Lemma timeout_bound_le (c : Context) (d : Z) :
  exists d', timeout_bound (WithTimeout c d) = Some d' /\ d' <= d.
Proof.
  cbn [timeout_bound].
  destruct (timeout_bound c) as [d0|]; eexists; (split; [reflexivity|lia]).
Qed.

Lemma within_two_seconds (c : Context) :
  exists d,
    timeout_bound (WithTimeout (WithTimeout c (2 * Second)) (2 * Second))
    = Some d /\ d <= 2 * Second.
Proof. apply timeout_bound_le. Qed.

(** X7. With either driver as the locker, every call that the handler of
    [/healthz] makes on the lock backend is made under a timeout of at
    most two seconds, whatever the context of the request: the Redis ping,
    which the driver itself does not bound, runs under the handler's
    two-second context. *)
Theorem healthz_backend_within_two_seconds :
  forall (rctx : Context),
    (forall (S : Type) (w : world (healthzE redisE) S)
            (g : Globals (option RedsyncLocker.t)) (s : S),
        Forall (within (@redis_ctx) (2 * Second))
          (trace (run w (healthz g rctx) s)))
    /\ (forall (S : Type) (w : world (healthzE etcdE) S)
              (g : Globals (option EtcdLocker.t)) (s : S),
          Forall (within (@etcd_ctx) (2 * Second))
            (trace (run w (healthz g rctx) s))).
Proof.
  intros rctx. split; intros S w g s; destruct g as [db chk gl];
    unfold healthz, externalCheck;
    cbn [mainDB checkExternalHealth globalLocker].
  - destruct gl as [[[rs [rd|]]|]|]; destruct db, chk; cbn; crunch w;
      repeat constructor; cbn; intros ctx [= <-]; apply timeout_bound_le.
  - destruct gl as [[[[cl|]]|]|]; destruct db, chk; cbn; crunch w;
      repeat constructor; cbn; intros ctx [= <-]; apply within_two_seconds.
Qed.

(** ** More on the handlers *)

(** X8. Every handler returns either a response or an error, never both
    and never neither.  A response of [GetUser] or [UpdateUser] has
    [Success] set exactly when it carries a user; a response of
    [CreateUser] or [ListUsers] always has [Success] set, and the one of
    [CreateUser] always carries a user. *)
Theorem handlers_reply_xor_error :
  forall (U S : Type) (w : world (svcE U) S) (ctx : Context) (s : S),
    let xor (A : Type) (v : reply A) := fst v = None <-> snd v <> None in
    (forall req,
        let v := value (run w (UserServer.GetUser ctx req) s) in
        xor _ v
        /\ forall resp, fst v = Some resp ->
             (pb.GetUserResponse_Success resp = true
              <-> pb.GetUserResponse_User resp <> None))
    /\ (forall req,
          let v := value (run w (UserServer.ListUsers ctx req) s) in
          xor _ v
          /\ forall resp, fst v = Some resp ->
               pb.ListUsersResponse_Success resp = true)
    /\ (forall req,
          let v := value (run w (UserServer.CreateUser ctx req) s) in
          xor _ v
          /\ forall resp, fst v = Some resp ->
               pb.CreateUserResponse_Success resp = true
               /\ pb.CreateUserResponse_User resp <> None)
    /\ (forall req,
          let v := value (run w (UserServer.UpdateUser ctx req) s) in
          xor _ v
          /\ forall resp, fst v = Some resp ->
               (pb.UpdateUserResponse_Success resp = true
                <-> pb.UpdateUserResponse_User resp <> None))
    /\ (forall req,
          let v := value (run w (UserServer.DeleteUser ctx req) s) in
          xor _ v).
Proof.
  intros U S w ctx s xor. unfold xor.
  split; [|split; [|split; [|split]]]; intros req; cbn;
    crunch w; cbn; repeat (first [split | intro]);
    repeat match goal with
      | H : Some _ = Some _ |- _ => injection H as H; subst
      end;
    cbn in *; try discriminate; try congruence.
Qed.

(** X9. Under the lock, [GetUser] returns the row it read as the user of a
    successful response; [sql.ErrNoRows] becomes the response "User not
    found" with a nil error; any other error of the read is returned as it
    is, with a nil response. *)
Theorem GetUser_outcomes :
  forall (U S : Type) (w : world (svcE U) S) (ctx : Context)
         (req : pb.GetUserRequest) (s s1 : S) (unlock : U),
    let id := pb.GetUserRequest_Id req in
    let v := value (run w (UserServer.GetUser ctx req) s) in
    w _ (lockCall ctx id) s = (Ok unlock, s1) ->
    (forall user s2,
        w _ (selectCall ctx id) s1 = (Ok user, s2) ->
        v = (Some {| pb.GetUserResponse_User := Some user;
                     pb.GetUserResponse_Success := true;
                     pb.GetUserResponse_Message := "User found successfully" |},
             None))
    /\ (forall s2,
          w _ (selectCall ctx id) s1 = (Fail ErrNoRows, s2) ->
          v = (Some {| pb.GetUserResponse_User := None;
                       pb.GetUserResponse_Success := false;
                       pb.GetUserResponse_Message := "User not found" |},
               None))
    /\ (forall err s2,
          err <> ErrNoRows ->
          w _ (selectCall ctx id) s1 = (Fail err, s2) ->
          v = (None, Some err)).
Proof.
  intros U S w ctx req s s1 unlock id v HL. subst id v.
  unfold lockCall, selectCall in *.
  split; [|split].
  - intros user s2 HS. cbn. rewrite HL. cbn. rewrite HS. cbn.
    answer w. reflexivity.
  - intros s2 HS. cbn. rewrite HL. cbn. rewrite HS. cbn.
    answer w. reflexivity.
  - intros err s2 Hne HS. cbn. rewrite HL. cbn. rewrite HS. cbn.
    destruct err; [contradiction| |]; cbn; answer w; reflexivity.
Qed.

Lemma GetUser_outcomes_witness :
  value (run (mock mockRereadFails)
           (UserServer.GetUser Background {| pb.GetUserRequest_Id := 1 |}) tt)
  = (None, Some (errorString "connection reset"))
  /\ value (run (mock mockOK)
              (UserServer.GetUser Background {| pb.GetUserRequest_Id := 1 |})
              tt)
     = (Some {| pb.GetUserResponse_User := Some alice;
                pb.GetUserResponse_Success := true;
                pb.GetUserResponse_Message := "User found successfully" |},
        None).
Proof.
  split.
  - destruct (GetUser_outcomes nat unit (mock mockRereadFails) Background
                {| pb.GetUserRequest_Id := 1 |} tt tt 7%nat eq_refl)
      as [_ [_ H]].
    apply (H (errorString "connection reset") tt); [discriminate|reflexivity].
  - destruct (GetUser_outcomes nat unit (mock mockOK) Background
                {| pb.GetUserRequest_Id := 1 |} tt tt 7%nat eq_refl)
      as [H _].
    apply (H alice tt eq_refl).
Defined.

(** X10. [CreateUser] reads the clock once and uses that reading both in
    the INSERT and in the response: the created user carries the fields of
    the request, equal creation and update times, and the identifier that
    the storage generated, converted to [int32] (unchanged when it fits).
    A failing INSERT, or an identifier that cannot be read, gives a nil
    response and that error. *)
Theorem CreateUser_outcomes :
  forall (U S : Type) (w : world (svcE U) S) (ctx : Context)
         (req : pb.CreateUserRequest) (s s1 : S) (now : string),
    let v := value (run w (UserServer.CreateUser ctx req) s) in
    w _ nowCall s = (now, s1) ->
    (forall res id s2,
        w _ (insertCall ctx req now) s1 = (Ok res, s2) ->
        LastInsertId res = Ok id ->
        v = (Some {| pb.CreateUserResponse_User :=
                       Some {| pb.Id := int32 id;
                               pb.Name := pb.CreateUserRequest_Name req;
                               pb.Email := pb.CreateUserRequest_Email req;
                               pb.Age := pb.CreateUserRequest_Age req;
                               pb.CreatedAt := now;
                               pb.UpdatedAt := now |};
                     pb.CreateUserResponse_Success := true;
                     pb.CreateUserResponse_Message :=
                       "User created successfully" |},
             None)
        /\ (- 2 ^ 31 <= id < 2 ^ 31 -> int32 id = id))
    /\ (forall err s2,
          w _ (insertCall ctx req now) s1 = (Fail err, s2) ->
          v = (None, Some err))
    /\ (forall res err s2,
          w _ (insertCall ctx req now) s1 = (Ok res, s2) ->
          LastInsertId res = Fail err ->
          v = (None, Some err)).
Proof.
  intros U S w ctx req s s1 now v HN. subst v.
  unfold nowCall, insertCall in *.
  split; [|split].
  - intros res id s2 HE HI. split.
    + cbn. rewrite HN. cbn. rewrite HE. cbn. rewrite HI. reflexivity.
    + intros Hr. unfold int32.
      change (2 ^ 31) with 2147483648 in *.
      change (2 ^ 32) with 4294967296.
      rewrite Z.mod_small by lia. lia.
  - intros err s2 HE. cbn. rewrite HN. cbn. rewrite HE. reflexivity.
  - intros res err s2 HE HI. cbn. rewrite HN. cbn. rewrite HE. cbn.
    rewrite HI. reflexivity.
Qed.

Lemma CreateUser_outcomes_witness :
  value (run (mock mockOK)
           (UserServer.CreateUser Background
              {| pb.CreateUserRequest_Name := "John Doe";
                 pb.CreateUserRequest_Email := "john@example.com";
                 pb.CreateUserRequest_Age := 30 |}) tt)
  = (Some {| pb.CreateUserResponse_User := Some alice;
             pb.CreateUserResponse_Success := true;
             pb.CreateUserResponse_Message := "User created successfully" |},
     None).
Proof.
  destruct (CreateUser_outcomes nat unit (mock mockOK) Background
              {| pb.CreateUserRequest_Name := "John Doe";
                 pb.CreateUserRequest_Email := "john@example.com";
                 pb.CreateUserRequest_Age := 30 |} tt tt
              "2024-01-01T00:00:00Z" eq_refl) as [H _].
  destruct (H {| LastInsertId := Ok 1; RowsAffected := Ok 1 |} 1 tt
              eq_refl eq_refl) as [Hv _].
  exact Hv.
Defined.

(** X11. In [GetUser], [UpdateUser] and [DeleteUser] every statement sent
    to the storage is a statement on one row, and its identifier is the
    one that was locked: the last argument of each statement is the
    request's identifier. *)
Theorem statements_on_locked_row :
  forall (U S : Type) (w : world (svcE U) S) (ctx : Context) (s : S),
    (forall req,
        lock_first ctx (pb.GetUserRequest_Id req)
          (trace (run w (UserServer.GetUser ctx req) s))
        /\ forallb (on_row (pb.GetUserRequest_Id req))
             (trace (run w (UserServer.GetUser ctx req) s)) = true)
    /\ (forall req,
          lock_first ctx (pb.UpdateUserRequest_Id req)
            (trace (run w (UserServer.UpdateUser ctx req) s))
          /\ forallb (on_row (pb.UpdateUserRequest_Id req))
               (trace (run w (UserServer.UpdateUser ctx req) s)) = true)
    /\ (forall req,
          lock_first ctx (pb.DeleteUserRequest_Id req)
            (trace (run w (UserServer.DeleteUser ctx req) s))
          /\ forallb (on_row (pb.DeleteUserRequest_Id req))
               (trace (run w (UserServer.DeleteUser ctx req) s)) = true).
Proof.
  intros U S w ctx s.
  split; [|split]; intros req; unfold lock_first, lockCall; cbn;
    crunch w; cbn; rewrite ?Z.eqb_refl;
    (split; [do 2 eexists; reflexivity | reflexivity]).
Qed.

Lemma scanRows_app (us : list pb.User) (rest : Rows) :
  forall acc,
    UserServer.scanRows (map (@Ok pb.User) us ++ rest)%list acc
    = UserServer.scanRows rest (acc ++ us)%list.
Proof.
  induction us as [|u us IH]; intros acc; cbn.
  - rewrite app_nil_r. reflexivity.
  - rewrite IH, <- app_assoc. reflexivity.
Qed.

(** X12. [ListUsers] is all or nothing: when the scan of a row fails, the
    users read before it are dropped, the rows after it are not looked at,
    and the reply is a nil response with that error.  The rows are closed
    exactly when the query succeeded, also when a scan fails. *)
Theorem ListUsers_outcomes :
  forall (U S : Type) (w : world (svcE U) S) (ctx : Context)
         (req : pb.ListUsersRequest) (s : S),
    let r := run w (UserServer.ListUsers ctx req) s in
    (forall err s1,
        w _ (selectAllCall ctx) s = (Fail err, s1) ->
        value r = (None, Some err)
        /\ trace r = [Entry (selectAllCall ctx) (Fail err)])
    /\ (forall rows s1,
          w _ (selectAllCall ctx) s = (Ok rows, s1) ->
          trace r = [Entry (selectAllCall ctx) (Ok rows);
                     Entry (inrE (inlE RowsClose)) tt]
          /\ (forall us err rest,
                rows = (map (@Ok pb.User) us ++ Fail err :: rest)%list ->
                value r = (None, Some err))
          /\ (forall us,
                rows = map (@Ok pb.User) us ->
                value r
                = (Some {| pb.ListUsersResponse_Users := us;
                           pb.ListUsersResponse_Total :=
                             int32 (Z.of_nat (List.length us));
                           pb.ListUsersResponse_Success := true;
                           pb.ListUsersResponse_Message :=
                             "Users retrieved successfully" |},
                   None))).
Proof.
  intros U S w ctx req s r. subst r. unfold selectAllCall.
  split.
  - intros err s1 HQ. cbn. rewrite HQ. split; reflexivity.
  - intros rows s1 HQ. cbn. rewrite HQ. cbn. split; [|split].
    + destruct (UserServer.scanRows rows []); cbn; answer w; reflexivity.
    + intros us err rest ->. rewrite scanRows_app. cbn.
      answer w. reflexivity.
    + intros us ->.
      rewrite <- (app_nil_r (map (@Ok pb.User) us)), scanRows_app. cbn.
      answer w. reflexivity.
Qed.

Lemma ListUsers_outcomes_witness :
  value (run (mock {| onLockUser := Ok 7%nat;
                      onExecContext := Fail (errorString "unused");
                      onQueryContext :=
                        Ok [Ok alice; Fail (errorString "bad row"); Ok alice];
                      onQueryRowContext := Ok alice;
                      onNow := "" |})
           (UserServer.ListUsers Background
              {| pb.ListUsersRequest_Page := 1;
                 pb.ListUsersRequest_Limit := 10 |}) tt)
  = (None, Some (errorString "bad row")).
Proof.
  destruct (ListUsers_outcomes nat unit
              (mock {| onLockUser := Ok 7%nat;
                       onExecContext := Fail (errorString "unused");
                       onQueryContext :=
                         Ok [Ok alice; Fail (errorString "bad row"); Ok alice];
                       onQueryRowContext := Ok alice;
                       onNow := "" |})
              Background
              {| pb.ListUsersRequest_Page := 1;
                 pb.ListUsersRequest_Limit := 10 |} tt) as [_ H].
  destruct (H [Ok alice; Fail (errorString "bad row"); Ok alice] tt eq_refl)
    as [_ [HF _]].
  apply (HF [alice] (errorString "bad row") [Ok alice] eq_refl).
Defined.

(** ** The client *)

(** X13. Each method of the client makes exactly one call, the RPC of its
    name, with a request built from its arguments and under a context of
    its own: ten seconds from the background context.  It never retries,
    and [ListUsers] always asks for page 1 with limit 100. *)
Theorem client_single_rpc :
  forall (S : Type) (w : world rpcE S) (c : UserClient.t) (s : S),
    timeout_bound clientCtx = Some 10000000000
    /\ (forall name email age, exists x,
          trace (run w (UserClient.CreateUser c name email age) s)
          = [Entry (RPCCreateUser clientCtx
                      {| pb.CreateUserRequest_Name := name;
                         pb.CreateUserRequest_Email := email;
                         pb.CreateUserRequest_Age := age |}) x])
    /\ (forall id, exists x,
          trace (run w (UserClient.GetUser c id) s)
          = [Entry (RPCGetUser clientCtx {| pb.GetUserRequest_Id := id |}) x])
    /\ (exists x,
          trace (run w (UserClient.ListUsers c) s)
          = [Entry (RPCListUsers clientCtx
                      {| pb.ListUsersRequest_Page := 1;
                         pb.ListUsersRequest_Limit := 100 |}) x])
    /\ (forall id name email age, exists x,
          trace (run w (UserClient.UpdateUser c id name email age) s)
          = [Entry (RPCUpdateUser clientCtx
                      {| pb.UpdateUserRequest_Id := id;
                         pb.UpdateUserRequest_Name := name;
                         pb.UpdateUserRequest_Email := email;
                         pb.UpdateUserRequest_Age := age |}) x])
    /\ (forall id, exists x,
          trace (run w (UserClient.DeleteUser c id) s)
          = [Entry (RPCDeleteUser clientCtx {| pb.DeleteUserRequest_Id := id |})
               x]).
Proof.
  intros S w c s. split; [reflexivity|].
  repeat split; intros; unfold clientCtx; cbn; answer w;
    repeat match goal with
      | |- context [match ?x with _ => _ end] => destruct x; cbn
      | |- context [if ?b then _ else _] => destruct b; cbn
      end;
    eexists; reflexivity.
Qed.

(** X14. [GetUser] and [CreateUser] of the client return a user exactly
    when the call succeeded with [Success] set and a user in the response;
    otherwise they return a nil user and an error.  The error is a plain
    message: it does not wrap the error of the call, and for a response
    without [Success] it is the response's message after the method's
    prefix. *)
Theorem client_user_or_error :
  forall (S : Type) (w : world rpcE S) (c : UserClient.t) (s s' : S),
    let plain (v : reply pb.User) :=
      (fst v = None <-> snd v <> None)
      /\ forall e, snd v = Some e ->
           Unwrap e = None /\ kind_of e = KErrorString in
    (forall id ans,
        w _ (RPCGetUser clientCtx {| pb.GetUserRequest_Id := id |}) s
        = (ans, s') ->
        let v := value (run w (UserClient.GetUser c id) s) in
        plain v
        /\ (forall u, fst v = Some u <->
              exists resp, ans = Ok resp
                /\ pb.GetUserResponse_Success resp = true
                /\ pb.GetUserResponse_User resp = Some u)
        /\ (forall resp, ans = Ok resp ->
              pb.GetUserResponse_Success resp = false ->
              snd v = Some (errorString ("failed to get user: "
                                         ++ pb.GetUserResponse_Message resp))))
    /\ (forall name email age ans,
          w _ (RPCCreateUser clientCtx
                 {| pb.CreateUserRequest_Name := name;
                    pb.CreateUserRequest_Email := email;
                    pb.CreateUserRequest_Age := age |}) s
          = (ans, s') ->
          let v := value (run w (UserClient.CreateUser c name email age) s) in
          plain v
          /\ (forall u, fst v = Some u <->
                exists resp, ans = Ok resp
                  /\ pb.CreateUserResponse_Success resp = true
                  /\ pb.CreateUserResponse_User resp = Some u)
          /\ (forall resp, ans = Ok resp ->
                pb.CreateUserResponse_Success resp = false ->
                snd v = Some (errorString
                                ("failed to create user: "
                                 ++ pb.CreateUserResponse_Message resp)))).
Proof.
  intros S w c s s' plain. unfold plain, clientCtx.
  split.
  - intros id ans H. cbn -[Z.mul]. cbn -[Z.mul] in H. rewrite H.
    destruct ans as [[u b m]|err]; cbn; [destruct b, u; cbn|];
      repeat (first [split | intro]);
      repeat match goal with
        | H : exists _, _ |- _ => destruct H as [? [? [? ?]]]
        | H : Some _ = Some _ |- _ => injection H as H; subst
        | H : Ok _ = Ok _ |- _ => injection H as H; subst
        end;
      cbn in *; subst; try discriminate; try congruence;
      try (eexists; repeat split; reflexivity).
  - intros name email age ans H. cbn -[Z.mul]. cbn -[Z.mul] in H. rewrite H.
    destruct ans as [[u b m]|err]; cbn; [destruct b, u; cbn|];
      repeat (first [split | intro]);
      repeat match goal with
        | H : exists _, _ |- _ => destruct H as [? [? [? ?]]]
        | H : Some _ = Some _ |- _ => injection H as H; subst
        | H : Ok _ = Ok _ |- _ => injection H as H; subst
        end;
      cbn in *; subst; try discriminate; try congruence;
      try (eexists; repeat split; reflexivity).
Qed.

(** X15. [UpdateUser] of the client has no check for a nil user: it
    panics exactly when the call succeeds with [Success] set and no user
    in the response.  [DeleteUser] of the client returns a nil error
    exactly when the call succeeded with [Success] set. *)
Theorem client_update_panics_on_nil_user :
  forall (S : Type) (w : world rpcE S) (c : UserClient.t) (s s' : S),
    (forall id name email age ans,
        w _ (RPCUpdateUser clientCtx
               {| pb.UpdateUserRequest_Id := id;
                  pb.UpdateUserRequest_Name := name;
                  pb.UpdateUserRequest_Email := email;
                  pb.UpdateUserRequest_Age := age |}) s
        = (ans, s') ->
        (value (run w (UserClient.UpdateUser c id name email age) s) = Panics
         <-> exists resp, ans = Ok resp
               /\ pb.UpdateUserResponse_Success resp = true
               /\ pb.UpdateUserResponse_User resp = None))
    /\ (forall id ans,
          w _ (RPCDeleteUser clientCtx {| pb.DeleteUserRequest_Id := id |}) s
          = (ans, s') ->
          (value (run w (UserClient.DeleteUser c id) s) = None
           <-> exists resp, ans = Ok resp
                 /\ pb.DeleteUserResponse_Success resp = true)).
Proof.
  intros S w c s s'. unfold clientCtx. split.
  - intros id name email age ans H. cbn. cbn in H. rewrite H.
    destruct ans as [[u b m]|err]; cbn; [destruct b, u; cbn|]; split;
      try discriminate; try (intros; reflexivity);
      try (intros [resp [HA [HB HC]]]; try discriminate;
           injection HA as <-; cbn in *; discriminate).
    intros _. eexists. repeat split; reflexivity.
  - intros id ans H. cbn. cbn in H. rewrite H.
    destruct ans as [[b m]|err]; cbn; [destruct b; cbn|]; split;
      try discriminate; try (intros; reflexivity);
      try (intros [resp [HA HB]]; try discriminate;
           injection HA as <-; cbn in *; discriminate).
    intros _. eexists. repeat split; reflexivity.
Qed.

Lemma client_update_panics_on_nil_user_witness :
  value (run (mockRPC mockRPCUpdated) (UserClient.DeleteUser client0 999) tt)
  <> None.
Proof.
  destruct (client_update_panics_on_nil_user unit (mockRPC mockRPCUpdated)
              client0 tt tt) as [_ H].
  intros HN.
  apply (H 999 (onRPCDeleteUser mockRPCUpdated) eq_refl) in HN.
  destruct HN as [resp [HA HB]]. injection HA as <-. discriminate HB.
Defined.

Lemma server_negative_is_not_found {U S : Type} (w : world (svcE U) S)
  (ctx : Context) (s : S) :
  (forall req resp e,
      value (run w (UserServer.GetUser ctx req) s) = (Some resp, e) ->
      (pb.GetUserResponse_Success resp = true
       /\ pb.GetUserResponse_User resp <> None)
      \/ (pb.GetUserResponse_Success resp = false
          /\ pb.GetUserResponse_Message resp = "User not found"))
  /\ (forall req resp e,
        value (run w (UserServer.UpdateUser ctx req) s) = (Some resp, e) ->
        (pb.UpdateUserResponse_Success resp = true
         /\ pb.UpdateUserResponse_User resp <> None)
        \/ (pb.UpdateUserResponse_Success resp = false
            /\ pb.UpdateUserResponse_Message resp = "User not found"))
  /\ (forall req resp e,
        value (run w (UserServer.DeleteUser ctx req) s) = (Some resp, e) ->
        pb.DeleteUserResponse_Success resp = true
        \/ (pb.DeleteUserResponse_Success resp = false
            /\ pb.DeleteUserResponse_Message resp = "User not found")).
Proof.
  split; [|split]; intros req resp e; cbn; crunch w; intros [= <- <-]; cbn;
    try (left; split; [reflexivity|discriminate]);
    try (left; reflexivity);
    try (right; split; reflexivity).
Qed.

(** X16. The server and the client fit together: a response of the
    server's [GetUser], [UpdateUser] or [DeleteUser] either has [Success]
    set, and then the client returns the user it carries (the client's
    [UpdateUser] does not panic), or is the response "User not found", and
    then the client returns the error "failed to ... user: User not
    found". *)
Theorem client_on_server_reply :
  forall (U SS : Type) (sw : world (svcE U) SS) (sctx : Context) (ss : SS)
         (S : Type) (w : world rpcE S) (c : UserClient.t) (s s' : S),
    (forall sreq resp e id,
        value (run sw (UserServer.GetUser sctx sreq) ss) = (Some resp, e) ->
        w _ (RPCGetUser clientCtx {| pb.GetUserRequest_Id := id |}) s
        = (Ok resp, s') ->
        let v := value (run w (UserClient.GetUser c id) s) in
        (exists u, pb.GetUserResponse_User resp = Some u
                   /\ v = (Some u, None))
        \/ v = (None,
                Some (errorString "failed to get user: User not found")))
    /\ (forall sreq resp e id name email age,
          value (run sw (UserServer.UpdateUser sctx sreq) ss)
          = (Some resp, e) ->
          w _ (RPCUpdateUser clientCtx
                 {| pb.UpdateUserRequest_Id := id;
                    pb.UpdateUserRequest_Name := name;
                    pb.UpdateUserRequest_Email := email;
                    pb.UpdateUserRequest_Age := age |}) s
          = (Ok resp, s') ->
          let v := value (run w (UserClient.UpdateUser c id name email age) s) in
          (exists u, pb.UpdateUserResponse_User resp = Some u
                     /\ v = Returns (Some u, None))
          \/ v = Returns
                   (None,
                    Some (errorString
                            "failed to update user: User not found")))
    /\ (forall sreq resp e id,
          value (run sw (UserServer.DeleteUser sctx sreq) ss)
          = (Some resp, e) ->
          w _ (RPCDeleteUser clientCtx {| pb.DeleteUserRequest_Id := id |}) s
          = (Ok resp, s') ->
          let v := value (run w (UserClient.DeleteUser c id) s) in
          v = None
          \/ v = Some (errorString "failed to delete user: User not found")).
Proof.
  intros U SS sw sctx ss S w c s s'.
  destruct (server_negative_is_not_found sw sctx ss) as [HG [HU HD]].
  unfold clientCtx. split; [|split].
  - intros sreq resp e id Hs Hc. cbn. cbn in Hc. rewrite Hc. cbn.
    destruct (HG _ _ _ Hs) as [[H1 H2]|[H1 H2]]; rewrite H1; cbn.
    + destruct (pb.GetUserResponse_User resp) as [u|]; [|contradiction].
      left. exists u. split; reflexivity.
    + right. rewrite H2. reflexivity.
  - intros sreq resp e id name email age Hs Hc.
    cbn. cbn in Hc. rewrite Hc. cbn.
    destruct (HU _ _ _ Hs) as [[H1 H2]|[H1 H2]]; rewrite H1; cbn.
    + destruct (pb.UpdateUserResponse_User resp) as [u|]; [|contradiction].
      left. exists u. split; reflexivity.
    + right. rewrite H2. reflexivity.
  - intros sreq resp e id Hs Hc. cbn. cbn in Hc. rewrite Hc. cbn.
    destruct (HD _ _ _ Hs) as [H1|[H1 H2]]; rewrite H1; cbn.
    + left. reflexivity.
    + right. rewrite H2. reflexivity.
Qed.

Lemma client_on_server_reply_witness :
  value (run (mockRPC mockRPCUpdated) (UserClient.DeleteUser client0 999) tt)
  = None
  \/ value (run (mockRPC mockRPCUpdated) (UserClient.DeleteUser client0 999) tt)
     = Some (errorString "failed to delete user: User not found").
Proof.
  destruct (client_on_server_reply nat unit (mock mockNoRows) Background tt
              unit (mockRPC mockRPCUpdated) client0 tt tt) as [_ [_ H]].
  apply (H {| pb.DeleteUserRequest_Id := 999 |} deleteNotFound None 999
           eq_refl eq_refl).
Defined.

(** ** Handlers over the drivers *)

(** X17. What a request leaves in the lock backend is what the driver's
    release leaves, whatever the storage did: with the Redis driver, the
    state after [Unlock] of the key, a call that takes no context; with
    the etcd driver, the state after [Unlock] under the request's context
    followed by [Close] of the session.  Nothing else is tried: an etcd
    backend that refuses both calls and keeps its state, as when the
    context of the request has ended, still holds the mutex after the
    handler has returned. *)
Theorem backend_state_after_request :
  forall (S0 : Type) (w0 : world baseE S0) (ctx : Context) (id : Z) (s0 : S0),
    (forall (RS : Type) (wr : world redisE RS) (lr : option RedsyncLocker.t)
            (r r1 : RS),
        let after (A : Type) (p : prog (svcE RedsyncLocker.unlockFunc) A) :=
          fst (final (run (world_sum wr w0) (link lr p) (r, s0)))
          = snd (wr _ (MutexUnlock (redisKey id)) r1) in
        wr _ (MutexLockContext ctx (redisKey id)) r = (None, r1) ->
        (forall req, pb.GetUserRequest_Id req = id ->
           after _ (UserServer.GetUser ctx req))
        /\ (forall req, pb.UpdateUserRequest_Id req = id ->
              after _ (UserServer.UpdateUser ctx req))
        /\ (forall req, pb.DeleteUserRequest_Id req = id ->
              after _ (UserServer.DeleteUser ctx req)))
    /\ (forall (ES : Type) (we : world etcdE ES) (le : option EtcdLocker.t)
              (e e1 e2 : ES) (sess : Session),
          let released :=
            snd (we _ (SessionClose sess)
                   (snd (we _ (EtcdMutexUnlock ctx sess (etcdKey id)) e2))) in
          let after (A : Type) (p : prog (svcE EtcdLocker.unlockFunc) A) :=
            fst (final (run (world_sum we w0) (link le p) (e, s0)))
            = released in
          we _ (NewSession ctx) e = (Ok sess, e1) ->
          we _ (MutexLock ctx sess (etcdKey id)) e1 = (None, e2) ->
          (forall req, pb.GetUserRequest_Id req = id ->
             after _ (UserServer.GetUser ctx req))
          /\ (forall req, pb.UpdateUserRequest_Id req = id ->
                after _ (UserServer.UpdateUser ctx req))
          /\ (forall req, pb.DeleteUserRequest_Id req = id ->
                after _ (UserServer.DeleteUser ctx req))
          /\ (forall err err',
                we _ (EtcdMutexUnlock ctx sess (etcdKey id)) e2
                = (Some err, e2) ->
                we _ (SessionClose sess) e2 = (Some err', e2) ->
                released = e2)).
Proof.
  intros S0 w0 ctx id s0. split.
  - intros RS wr lr r r1 after HL. subst after. unfold redisKey in *.
    split; [|split]; intros req <-;
      cbn in HL |- *; rewrite HL; cbn;
      repeat (first [progress answer w0 | progress cases
                    | progress answer wr]);
      reflexivity.
  - intros ES we le e e1 e2 sess released after HS HL.
    subst after released. unfold etcdKey in *.
    split; [|split; [|split]].
    4: { intros err err' HU HC. cbn in HU, HC |- *.
         rewrite HU. cbn. rewrite HC. reflexivity. }
    all: intros req <-;
      cbn in HS, HL |- *; rewrite HS; cbn; rewrite HL; cbn;
      repeat (first [progress answer w0 | progress cases
                    | progress answer we]);
      reflexivity.
Qed.

Lemma backend_state_after_request_witness :
  mutexes
    (fst (final (run (world_sum memEtcdEnding memBase)
                   (link etcd0
                      (UserServer.DeleteUser
                         (WithTimeout Background (5 * Second))
                         {| pb.DeleteUserRequest_Id := 7 |}))
                   (etcdFresh, emptyDB))))
  = [("/user-lock-7", 1)].
Proof.
  destruct (backend_state_after_request MemDB memBase
              (WithTimeout Background (5 * Second)) 7 emptyDB) as [_ H].
  destruct (H MemEtcd memEtcdEnding etcd0 etcdFresh
              {| nextLease := 2; sessions := [1]; mutexes := [] |}
              {| nextLease := 2; sessions := [1];
                 mutexes := [("/user-lock-7", 1)] |} 1 eq_refl eq_refl)
    as [_ [_ [HD HK]]].
  pose proof (HD {| pb.DeleteUserRequest_Id := 7 |} eq_refl) as E.
  pose proof (HK (errorString "context deadline exceeded")
                (errorString "context deadline exceeded") eq_refl eq_refl)
    as K.
  cbv beta zeta in E, K.
  exact (eq_trans (f_equal mutexes E) (f_equal mutexes K)).
Defined.


(** X18. With the etcd driver plugged in, a handler whose mutex cannot be
    locked opens a session, tries the mutex, closes the session and
    returns the wrapped error: it makes no call on the storage and leaves
    it as it was. *)
Theorem etcd_lock_failure_end_to_end :
  forall (ES S0 : Type) (we : world etcdE ES) (w0 : world baseE S0)
         (le : option EtcdLocker.t) (ctx : Context) (id : Z)
         (e e1 e2 : ES) (s0 : S0) (sess : Session) (err : error),
    we _ (NewSession ctx) e = (Ok sess, e1) ->
    we _ (MutexLock ctx sess ("/user-lock-" ++ Sprintf_d id)) e1
    = (Some err, e2) ->
    let aborted (A : Type) (r : ran (etcdE +' baseE) (reply A) (ES * S0)) :=
      value r = (None, Some (lockError err))
      /\ snd (final r) = s0
      /\ exists x,
          trace r
          = [Entry (inlE (NewSession ctx)) (Ok sess);
             Entry (inlE (MutexLock ctx sess ("/user-lock-" ++ Sprintf_d id)))
               (Some err);
             Entry (inlE (SessionClose sess)) x] in
    (forall req, pb.GetUserRequest_Id req = id ->
       aborted _ (run (world_sum we w0)
                    (link le (UserServer.GetUser ctx req)) (e, s0)))
    /\ (forall req, pb.UpdateUserRequest_Id req = id ->
          aborted _ (run (world_sum we w0)
                       (link le (UserServer.UpdateUser ctx req)) (e, s0)))
    /\ (forall req, pb.DeleteUserRequest_Id req = id ->
          aborted _ (run (world_sum we w0)
                       (link le (UserServer.DeleteUser ctx req)) (e, s0))).
Proof.
  intros ES S0 we w0 le ctx id e e1 e2 s0 sess err HS HM aborted.
  unfold aborted.
  split; [|split]; intros req <-.
  - cbn in HS, HM |- *. rewrite HS. cbn. rewrite HM. cbn.
    destruct (we _ (SessionClose sess) e2) as [x e3]. cbn.
    repeat split. eexists. reflexivity.
  - cbn in HS, HM |- *. rewrite HS. cbn. rewrite HM. cbn.
    destruct (we _ (SessionClose sess) e2) as [x e3]. cbn.
    repeat split. eexists. reflexivity.
  - cbn in HS, HM |- *. rewrite HS. cbn. rewrite HM. cbn.
    destruct (we _ (SessionClose sess) e2) as [x e3]. cbn.
    repeat split. eexists. reflexivity.
Qed.

Lemma etcd_lock_failure_end_to_end_witness :
  value (run (world_sum memEtcd memBase)
           (link etcd0
              (UserServer.DeleteUser Background
                 {| pb.DeleteUserRequest_Id := 7 |}))
           (etcdBusy, emptyDB))
  = (None,
     Some (wrapError "failed to acquire lock: context deadline exceeded"
             (errorString "context deadline exceeded"))).
Proof.
  destruct (etcd_lock_failure_end_to_end MemEtcd MemDB memEtcd memBase etcd0
              Background 7 etcdBusy
              {| nextLease := 3; sessions := [2; 1];
                 mutexes := [("/user-lock-7", 1)] |}
              {| nextLease := 3; sessions := [2; 1];
                 mutexes := [("/user-lock-7", 1)] |}
              emptyDB 2 (errorString "context deadline exceeded")
              eq_refl eq_refl) as [_ [_ H]].
  apply (H {| pb.DeleteUserRequest_Id := 7 |} eq_refl).
Defined.

Ltac storage_between :=
  first [ exists []; eexists; reflexivity
        | eexists [Entry _ _]; eexists; reflexivity
        | eexists [Entry _ _; Entry _ _]; eexists; reflexivity
        | eexists [Entry _ _; Entry _ _; Entry _ _]; eexists; reflexivity ].

Ltac storage_between2 :=
  first [ exists []; do 2 eexists; reflexivity
        | eexists [Entry _ _]; do 2 eexists; reflexivity
        | eexists [Entry _ _; Entry _ _]; do 2 eexists; reflexivity
        | eexists [Entry _ _; Entry _ _; Entry _ _]; do 2 eexists;
          reflexivity ].

(** X19. With a driver plugged in, a handler that got its lock makes its
    calls in this order, on every path and whatever the storage answers:
    the lock on the key of the request's identifier, calls on the storage
    and the clock only, then the release of that same key (for etcd: the
    mutex unlocked, then the session closed), and nothing after it. *)
Theorem driver_critical_section :
  forall (S0 : Type) (w0 : world baseE S0) (ctx : Context) (id : Z) (s0 : S0),
    (forall (RS : Type) (wr : world redisE RS) (lr : option RedsyncLocker.t)
            (r r1 : RS),
        let key := "user-lock-" ++ Sprintf_d id in
        let sec (A : Type) (p : prog (svcE RedsyncLocker.unlockFunc) A) :=
          redis_section ctx key
            (trace (run (world_sum wr w0) (link lr p) (r, s0))) in
        wr _ (MutexLockContext ctx key) r = (None, r1) ->
        (forall req, pb.GetUserRequest_Id req = id ->
           sec _ (UserServer.GetUser ctx req))
        /\ (forall req, pb.UpdateUserRequest_Id req = id ->
              sec _ (UserServer.UpdateUser ctx req))
        /\ (forall req, pb.DeleteUserRequest_Id req = id ->
              sec _ (UserServer.DeleteUser ctx req)))
    /\ (forall (ES : Type) (we : world etcdE ES) (le : option EtcdLocker.t)
              (e e1 e2 : ES) (sess : Session),
          let key := "/user-lock-" ++ Sprintf_d id in
          let sec (A : Type) (p : prog (svcE EtcdLocker.unlockFunc) A) :=
            etcd_section ctx sess key
              (trace (run (world_sum we w0) (link le p) (e, s0))) in
          we _ (NewSession ctx) e = (Ok sess, e1) ->
          we _ (MutexLock ctx sess key) e1 = (None, e2) ->
          (forall req, pb.GetUserRequest_Id req = id ->
             sec _ (UserServer.GetUser ctx req))
          /\ (forall req, pb.UpdateUserRequest_Id req = id ->
                sec _ (UserServer.UpdateUser ctx req))
          /\ (forall req, pb.DeleteUserRequest_Id req = id ->
                sec _ (UserServer.DeleteUser ctx req))).
Proof.
  intros S0 w0 ctx id s0. split.
  - intros RS wr lr r r1 key sec HL. subst key sec.
    split; [|split]; intros req <-; unfold redis_section;
      cbn in HL |- *; rewrite HL; cbn;
      repeat (first [progress answer w0 | progress cases
                    | progress answer wr]);
      storage_between.
  - intros ES we le e e1 e2 sess key sec HS HL. subst key sec.
    split; [|split]; intros req <-; unfold etcd_section;
      cbn in HS, HL |- *; rewrite HS; cbn; rewrite HL; cbn;
      repeat (first [progress answer w0 | progress cases
                    | progress answer we]);
      storage_between2.
Qed.

Lemma driver_critical_section_witness :
  redis_section Background ("user-lock-" ++ Sprintf_d 1)
    (trace (run (world_sum memRedis memBase)
              (link redsync0
                 (UserServer.DeleteUser Background
                    {| pb.DeleteUserRequest_Id := 1 |}))
              ([], emptyDB))).
Proof.
  destruct (driver_critical_section MemDB memBase Background 1 emptyDB)
    as [H _].
  destruct (H (list string) memRedis redsync0 [] ["user-lock-1"] eq_refl)
    as [_ [_ HD]].
  apply (HD {| pb.DeleteUserRequest_Id := 1 |} eq_refl).
Defined.

(** ** Start-up *)

(** X20. [NewUserServer] contacts a lock backend only after the database
    was opened, pinged and given its schema, all three without error, and
    then only once, as its last call.  When it returns a server, the
    server's locker was built with its client, for the driver that the
    lower-cased lock type names: Redis at the given address after a ping
    under five seconds, or etcd at the comma-separated endpoints. *)
Theorem startup_database_before_locker :
  forall (ToLower : string -> string) (S : Type) (w : world startE S)
         (mysqlDSN lockType redisAddr etcdEndpoints : string) (s : S),
    let r := run w (NewUserServer ToLower mysqlDSN lockType redisAddr
                      etcdEndpoints) s in
    (forallb (fun en => negb (is_lock_backend en)) (trace r) = true
     \/ exists res en,
         trace r = [Entry (SqlOpen "mysql" mysqlDSN) None;
                    Entry SqlPing None;
                    Entry (SqlExec createTable) (Ok res);
                    en]
         /\ is_lock_backend en = true)
    /\ (forall srv,
          value r = Started srv ->
          db srv = mysqlDSN
          /\ has_client (locker srv) = true
          /\ match locker srv with
             | UseRedsync l =>
                 ToLower lockType = "redis"
                 /\ redisAddr <> ""
                 /\ RedsyncLocker.rdb l = Some redisAddr
                 /\ exists pre,
                     trace r
                     = (pre ++ [Entry (RedisPing redisAddr
                                         (WithTimeout Background (5 * Second)))
                                  None])%list
             | UseEtcd l =>
                 ToLower lockType = "etcd"
                 /\ etcdEndpoints <> ""
                 /\ EtcdLocker.client l = Some (Split etcdEndpoints ",")
                 /\ exists pre,
                     trace r
                     = (pre ++ [Entry (EtcdNew (Split etcdEndpoints ",")
                                         (5 * Second)) None])%list
             end).
Proof.
  intros ToLower S w dsn lt ra ee s r. subst r.
  unfold NewUserServer, initDB, NewEtcdLocker, NewRedsyncLocker.
  split.
  - cbn -[createTable Z.mul]. crunch w;
      first [ left; reflexivity
            | right; do 2 eexists; split; reflexivity ].
  - intros srv. cbn -[createTable Z.mul]. crunch w; intros [= <-]; cbn -[Z.mul].
    + split; [reflexivity|]. split; [reflexivity|].
      split; [apply String.eqb_eq; assumption|].
      split; [intros ->; discriminate|].
      split; [reflexivity|].
      eexists [_; _; _]. reflexivity.
    + split; [reflexivity|]. split; [reflexivity|].
      split; [apply String.eqb_eq; assumption|].
      split; [intros ->; discriminate|].
      split; [reflexivity|].
      eexists [_; _; _]. reflexivity.
Qed.

Lemma startup_database_before_locker_witness :
  db {| db := "testuser:testpass@tcp(localhost:3306)/testdb";
        locker := UseEtcd {| EtcdLocker.client :=
                               Some ["localhost:2379"; "localhost:2380"] |} |}
  = "testuser:testpass@tcp(localhost:3306)/testdb"
  /\ has_client
       (UseEtcd {| EtcdLocker.client :=
                     Some ["localhost:2379"; "localhost:2380"] |}) = true.
Proof.
  destruct (startup_database_before_locker lowerASCII unit startOK
              "testuser:testpass@tcp(localhost:3306)/testdb" "ETCD"
              "" "localhost:2379,localhost:2380" tt) as [_ H].
  destruct (H {| db := "testuser:testpass@tcp(localhost:3306)/testdb";
                 locker := UseEtcd {| EtcdLocker.client :=
                                        Some ["localhost:2379";
                                              "localhost:2380"] |} |}
              eq_refl) as [H1 [H2 _]].
  split; [exact H1|exact H2].
Defined.

(** X21. A lock type that, lower-cased, is neither "etcd" nor "redis", an
    etcd lock type without endpoints, and a redis lock type without
    address end the process: [NewUserServer] does not return, and it
    contacts no lock backend. *)
Theorem startup_rejects_bad_configuration :
  forall (ToLower : string -> string) (S : Type) (w : world startE S)
         (mysqlDSN lockType redisAddr etcdEndpoints : string) (s : S),
    (ToLower lockType <> "etcd" /\ ToLower lockType <> "redis")
    \/ (ToLower lockType = "etcd" /\ etcdEndpoints = "")
    \/ (ToLower lockType = "redis" /\ redisAddr = "") ->
    let r := run w (NewUserServer ToLower mysqlDSN lockType redisAddr
                      etcdEndpoints) s in
    (exists msg, value r = Fatal msg)
    /\ forallb (fun en => negb (is_lock_backend en)) (trace r) = true.
Proof.
  intros ToLower S w dsn lt ra ee s H r. subst r.
  unfold NewUserServer, initDB.
  assert (Hc : (String.eqb (ToLower lt) "etcd" = false
                /\ String.eqb (ToLower lt) "redis" = false)
               \/ (String.eqb (ToLower lt) "etcd" = true
                   /\ String.eqb ee "" = true)
               \/ (String.eqb (ToLower lt) "etcd" = false
                   /\ String.eqb (ToLower lt) "redis" = true
                   /\ String.eqb ra "" = true)).
  { destruct H as [[H1 H2]|[[H1 H2]|[H1 H2]]].
    - left. split; apply String.eqb_neq; assumption.
    - right. left. rewrite H1, H2. split; reflexivity.
    - right. right. rewrite H1, H2. repeat split. }
  cbn -[createTable].
  destruct Hc as [[E1 E2]|[[E1 E2]|[E1 [E2 E3]]]];
    rewrite ?E1, ?E2, ?E3;
    answer w;
    repeat match goal with
      | |- context [match ?x with _ => _ end] =>
          is_var x; destruct x; cbn -[createTable]
      end;
    answer w;
    repeat match goal with
      | |- context [match ?x with _ => _ end] =>
          is_var x; destruct x; cbn -[createTable]
      end;
    answer w;
    repeat match goal with
      | |- context [match ?x with _ => _ end] =>
          is_var x; destruct x; cbn -[createTable]
      end;
    (split; [eexists; reflexivity | reflexivity]).
Qed.

Lemma startup_rejects_bad_configuration_witness :
  exists msg,
    value (run startOK
             (NewUserServer lowerASCII
                "testuser:testpass@tcp(localhost:3306)/testdb" "zookeeper"
                "localhost:6379" "localhost:2379") tt)
    = Fatal msg.
Proof.
  apply (startup_rejects_bad_configuration lowerASCII unit startOK
           "testuser:testpass@tcp(localhost:3306)/testdb" "zookeeper"
           "localhost:6379" "localhost:2379" tt).
  left. split; discriminate.
Defined.

(** X22. With the Redis driver plugged in, a handler whose lock cannot be
    taken makes that single call on the mutex and returns the wrapped
    error: it makes no call on the storage, leaves it as it was, and does
    not unlock. *)
Theorem redis_lock_failure_end_to_end :
  forall (RS S0 : Type) (wr : world redisE RS) (w0 : world baseE S0)
         (lr : option RedsyncLocker.t) (ctx : Context) (id : Z)
         (r r1 : RS) (s0 : S0) (err : error),
    wr _ (MutexLockContext ctx (redisKey id)) r = (Some err, r1) ->
    let aborted (A : Type) (x : ran (redisE +' baseE) (reply A) (RS * S0)) :=
      value x = (None, Some (lockError err))
      /\ final x = (r1, s0)
      /\ trace x
         = [Entry (inlE (MutexLockContext ctx (redisKey id))) (Some err)] in
    (forall req, pb.GetUserRequest_Id req = id ->
       aborted _ (run (world_sum wr w0)
                    (link lr (UserServer.GetUser ctx req)) (r, s0)))
    /\ (forall req, pb.UpdateUserRequest_Id req = id ->
          aborted _ (run (world_sum wr w0)
                       (link lr (UserServer.UpdateUser ctx req)) (r, s0)))
    /\ (forall req, pb.DeleteUserRequest_Id req = id ->
          aborted _ (run (world_sum wr w0)
                       (link lr (UserServer.DeleteUser ctx req)) (r, s0))).
Proof.
  intros RS S0 wr w0 lr ctx id r r1 s0 err HL aborted.
  unfold aborted, redisKey in *.
  split; [|split]; intros req <-;
    cbn in HL |- *; rewrite HL; cbn; repeat split.
Qed.

Lemma redis_lock_failure_end_to_end_witness :
  value (run (world_sum memRedis memBase)
           (link redsync0
              (UserServer.GetUser Background {| pb.GetUserRequest_Id := 7 |}))
           (["user-lock-7"], emptyDB))
  = (None,
     Some (wrapError "failed to acquire lock: redsync: failed to acquire lock"
             (errorString "redsync: failed to acquire lock"))).
Proof.
  destruct (redis_lock_failure_end_to_end (list string) MemDB memRedis memBase
              redsync0 Background 7 ["user-lock-7"] ["user-lock-7"] emptyDB
              (errorString "redsync: failed to acquire lock") eq_refl)
    as [H _].
  apply (H {| pb.GetUserRequest_Id := 7 |} eq_refl).
Defined.

Lemma handlers_reply_xor_error_witness :
  pb.UpdateUserResponse_Success updateNotFound = true
  <-> pb.UpdateUserResponse_User updateNotFound <> None.
Proof.
  destruct (handlers_reply_xor_error nat unit (mock mockNoRows) Background tt)
    as [_ [_ [_ [H _]]]].
  destruct (H {| pb.UpdateUserRequest_Id := 999;
                 pb.UpdateUserRequest_Name := "John Updated";
                 pb.UpdateUserRequest_Email := "john.updated@example.com";
                 pb.UpdateUserRequest_Age := 31 |}) as [_ HS].
  apply (HS updateNotFound eq_refl).
Defined.

Lemma client_user_or_error_witness :
  snd (value (run (mockRPC mockRPCUpdated) (UserClient.GetUser client0 999) tt))
  = Some (errorString "failed to get user: User not found").
Proof.
  destruct (client_user_or_error unit (mockRPC mockRPCUpdated) client0 tt tt)
    as [H _].
  destruct (H 999 (onRPCGetUser mockRPCUpdated) eq_refl) as [_ [_ HN]].
  apply (HN {| pb.GetUserResponse_User := None;
               pb.GetUserResponse_Success := false;
               pb.GetUserResponse_Message := "User not found" |}
           eq_refl eq_refl).
Defined.
